(** * EduCode: the translator and the execution harness of [aaaa.py]

    A shallow embedding of [EduCodeApp.parse_code], [EduCodeApp.run_code] and
    [EduCodeApp.debug_code].  Python strings are sequences of Unicode code
    points, so a [str] is a list of code points; string literals of the
    source are written as UTF-8 literals and decoded by [u]. *)

From Stdlib Require Import NArith ZArith Bool String Ascii Lia Decimal Permutation List.
Import ListNotations.

(** ** Python strings *)

Module Py.

Definition char := N.
Definition str := list char.

(** Decoding of the UTF-8 bytes of a literal into code points. *)
Fixpoint decode_utf8 (bs : list N) : str :=
  match bs with
  | [] => []
  | b0 :: r0 =>
    if (b0 <? 128)%N then b0 :: decode_utf8 r0
    else if (b0 <? 224)%N then
      match r0 with
      | b1 :: r1 => ((b0 - 192) * 64 + (b1 - 128))%N :: decode_utf8 r1
      | [] => []
      end
    else if (b0 <? 240)%N then
      match r0 with
      | b1 :: b2 :: r2 =>
        ((b0 - 224) * 4096 + (b1 - 128) * 64 + (b2 - 128))%N :: decode_utf8 r2
      | _ => []
      end
    else
      match r0 with
      | b1 :: b2 :: b3 :: r3 =>
        ((b0 - 240) * 262144 + (b1 - 128) * 4096 + (b2 - 128) * 64 + (b3 - 128))%N
          :: decode_utf8 r3
      | _ => []
      end
  end.

Definition u (s : string) : str :=
  decode_utf8 (map N_of_ascii (list_ascii_of_string s)).

(** The double quote, which a literal cannot hold. *)
Definition dq : char := 34%N.
Definition nl : char := 10%N.

Fixpoint in_ranges (c : char) (rs : list (N * N)) : bool :=
  match rs with
  | [] => false
  | (lo, hi) :: rest => ((lo <=? c)%N && (c <=? hi)%N) || in_ranges c rest
  end.

(** [str.isspace] on one character (Unicode 14, as CPython 3.11 has it). *)
Definition isspace (c : char) : bool :=
  in_ranges c
    [(9, 13); (28, 32); (133, 133); (160, 160); (5760, 5760); (8192, 8202);
     (8232, 8233); (8239, 8239); (8287, 8287); (12288, 12288)]%N.

(** The characters [str.isdigit] accepts (Numeric_Type Digit or Decimal). *)
Definition isdigit_char (c : char) : bool :=
  in_ranges c
    [(48, 57); (178, 179); (185, 185); (1632, 1641); (1776, 1785); (1984, 1993);
     (2406, 2415); (2534, 2543); (2662, 2671); (2790, 2799); (2918, 2927);
     (3046, 3055); (3174, 3183); (3302, 3311); (3430, 3439); (3558, 3567);
     (3664, 3673); (3792, 3801); (3872, 3881); (4160, 4169); (4240, 4249);
     (4969, 4977); (6112, 6121); (6160, 6169); (6470, 6479); (6608, 6618);
     (6784, 6793); (6800, 6809); (6992, 7001); (7088, 7097); (7232, 7241);
     (7248, 7257); (8304, 8304); (8308, 8313); (8320, 8329); (9312, 9320);
     (9332, 9340); (9352, 9360); (9450, 9450); (9461, 9469); (9471, 9471);
     (10102, 10110); (10112, 10120); (10122, 10130); (42528, 42537);
     (43216, 43225); (43264, 43273); (43472, 43481); (43504, 43513);
     (43600, 43609); (44016, 44025); (65296, 65305); (66720, 66729);
     (68160, 68163); (68912, 68921); (69216, 69224); (69714, 69722);
     (69734, 69743); (69872, 69881); (69942, 69951); (70096, 70105);
     (70384, 70393); (70736, 70745); (70864, 70873); (71248, 71257);
     (71360, 71369); (71472, 71481); (71904, 71913); (72016, 72025);
     (72784, 72793); (73040, 73049); (73120, 73129); (92768, 92777);
     (92864, 92873); (93008, 93017); (120782, 120831); (123200, 123209);
     (123632, 123641); (125264, 125273); (127232, 127242); (130032, 130041)]%N.

(** [s.isdigit()]: at least one character, all of them digits. *)
Definition isdigit (s : str) : bool :=
  match s with
  | [] => false
  | _ => forallb isdigit_char s
  end.

(** The line boundaries of [str.splitlines]. *)
Definition is_linebreak (c : char) : bool :=
  in_ranges c [(10, 13); (28, 30); (133, 133); (8232, 8233)]%N.

Fixpoint str_eqb (a b : str) : bool :=
  match a, b with
  | [], [] => true
  | x :: a', y :: b' => (x =? y)%N && str_eqb a' b'
  | _, _ => false
  end.

(** [s.lstrip()], [s.rstrip()], [s.strip()]. *)
Fixpoint lstrip (s : str) : str :=
  match s with
  | [] => []
  | c :: r => if isspace c then lstrip r else s
  end.

Fixpoint rstrip (s : str) : str :=
  match s with
  | [] => []
  | c :: r =>
    match rstrip r with
    | [] => if isspace c then [] else [c]
    | r' => c :: r'
    end
  end.

Definition strip (s : str) : str := rstrip (lstrip s).

(** [s.strip(chars)]. *)
Definition mem_char (c : char) (chars : str) : bool :=
  existsb (fun d => (c =? d)%N) chars.

Fixpoint lstrip_chars (chars s : str) : str :=
  match s with
  | [] => []
  | c :: r => if mem_char c chars then lstrip_chars chars r else s
  end.

Fixpoint rstrip_chars (chars s : str) : str :=
  match s with
  | [] => []
  | c :: r =>
    match rstrip_chars chars r with
    | [] => if mem_char c chars then [] else [c]
    | r' => c :: r'
    end
  end.

Definition strip_chars (s chars : str) : str :=
  rstrip_chars chars (lstrip_chars chars s).

(** [s.startswith(prefix)]. *)
Fixpoint startswith (s prefix : str) : bool :=
  match prefix, s with
  | [], _ => true
  | p :: ps, c :: cs => (p =? c)%N && startswith cs ps
  | _ :: _, [] => false
  end.

(** [s.replace(old, new)]: the occurrences of [old] are replaced from left
    to right, never overlapping; [skip] counts the characters of a matched
    occurrence still to pass over. *)
Fixpoint replace_from (old new : str) (skip : nat) (s : str) : str :=
  match s with
  | [] => []
  | c :: r =>
    match skip with
    | S k => replace_from old new k r
    | O =>
      if startswith s old
      then new ++ replace_from old new (length old - 1) r
      else c :: replace_from old new 0 r
    end
  end.

Definition replace (s old new : str) : str :=
  match old with
  | [] => new ++ flat_map (fun c => c :: new) s
  | _ => replace_from old new 0 s
  end.

(** [s.split(sep)] for a separator that is not empty (every separator of
    the source is a literal). *)
Fixpoint split_from (sep : str) (skip : nat) (cur s : str) : list str :=
  match s with
  | [] => [cur]
  | c :: r =>
    match skip with
    | S k => split_from sep k cur r
    | O =>
      if startswith s sep
      then cur :: split_from sep (length sep - 1) [] r
      else split_from sep 0 (cur ++ [c]) r
    end
  end.

Definition split (s sep : str) : list str := split_from sep 0 [] s.

(** [s.split()]: the runs of whitespace separate, and no part is empty. *)
Fixpoint split_ws_from (cur s : str) : list str :=
  match s with
  | [] => match cur with [] => [] | _ => [cur] end
  | c :: r =>
    if isspace c
    then match cur with
         | [] => split_ws_from [] r
         | _ => cur :: split_ws_from [] r
         end
    else split_ws_from (cur ++ [c]) r
  end.

Definition split_ws (s : str) : list str := split_ws_from [] s.

(** [s.splitlines()]: a carriage return followed by a line feed is one
    boundary, and no empty line follows the last boundary. *)
Fixpoint splitlines_from (after_cr : bool) (cur s : str) : list str :=
  match s with
  | [] => match cur with [] => [] | _ => [cur] end
  | c :: r =>
    if after_cr && (c =? 10)%N then splitlines_from false cur r
    else if is_linebreak c then cur :: splitlines_from (c =? 13)%N [] r
    else splitlines_from false (cur ++ [c]) r
  end.

Definition splitlines (s : str) : list str := splitlines_from false [] s.

(** [sep.join(parts)]. *)
Fixpoint join (sep : str) (parts : list str) : str :=
  match parts with
  | [] => []
  | [p] => p
  | p :: rest => p ++ sep ++ join sep rest
  end.

(** [s * n]. *)
Fixpoint str_mul (s : str) (n : nat) : str :=
  match n with
  | O => []
  | S k => s ++ str_mul s k
  end.

(** [x in parts]. *)
Definition contains (parts : list str) (x : str) : bool :=
  existsb (str_eqb x) parts.

(** Slices [s[start:stop]], [s[start:]] and [s[:stop]]; a negative bound
    counts from the end and every bound is clipped to the string. *)
Definition clip (len : nat) (i : Z) : nat :=
  if (i <? 0)%Z then Z.to_nat (Z.max 0 (i + Z.of_nat len))
  else Nat.min (Z.to_nat i) len.

Definition slice {A} (s : list A) (start stop : Z) : list A :=
  let a := clip (length s) start in
  let b := clip (length s) stop in
  firstn (b - a) (skipn a s).

Definition slice_from {A} (s : list A) (start : Z) : list A :=
  skipn (clip (length s) start) s.

Definition slice_to {A} (s : list A) (stop : Z) : list A :=
  firstn (clip (length s) stop) s.

(** [str(n)] for a natural number. *)
Fixpoint digits_of_uint (d : Decimal.uint) : str :=
  match d with
  | Nil => []
  | D0 r => 48%N :: digits_of_uint r
  | D1 r => 49%N :: digits_of_uint r
  | D2 r => 50%N :: digits_of_uint r
  | D3 r => 51%N :: digits_of_uint r
  | D4 r => 52%N :: digits_of_uint r
  | D5 r => 53%N :: digits_of_uint r
  | D6 r => 54%N :: digits_of_uint r
  | D7 r => 55%N :: digits_of_uint r
  | D8 r => 56%N :: digits_of_uint r
  | D9 r => 57%N :: digits_of_uint r
  end.

Definition str_of_nat (n : nat) : str := digits_of_uint (Nat.to_uint n).

(** ** Exceptions *)

Inductive exn : Type :=
| IndexError
| ValueError.

Inductive result (A : Type) : Type :=
| PyOk (a : A)
| PyRaise (e : exn).

Arguments PyOk {A} a.
Arguments PyRaise {A} e.

Definition bind {A B} (m : result A) (k : A -> result B) : result B :=
  match m with
  | PyOk a => k a
  | PyRaise e => PyRaise e
  end.

(** [l[i]]: a negative index counts from the end. *)
Definition getitem {A} (l : list A) (i : Z) : result A :=
  let j := if (i <? 0)%Z then (i + Z.of_nat (length l))%Z else i in
  if (j <? 0)%Z then PyRaise IndexError
  else match nth_error l (Z.to_nat j) with
       | Some x => PyOk x
       | None => PyRaise IndexError
       end.

(** [a, b = l]. *)
Definition unpack2 {A} (l : list A) : result (A * A) :=
  match l with
  | [a; b] => PyOk (a, b)
  | _ => PyRaise ValueError
  end.

End Py.

Import Py.

Notation "x <- m ;; k" := (bind m (fun x => k))
  (at level 61, m at next level, right associativity).
Notation "' p <- m ;; k" := (bind m (fun p => k))
  (at level 61, p pattern, m at next level, right associativity).

(** ** The translator: [EduCodeApp.parse_code] *)

(** The lines [python_lines] holds before the first source line is read. *)
Definition preamble : list str :=
  [ u "# -*- coding: utf-8 -*-";
    u "# Code généré par EduCode";
    u "import time";
    u "import math";
    [] ].

(** [(len(line) - len(stripped)) // 4], with [stripped = line.strip()]. *)
Definition indent_level (line : str) : nat :=
  (length line - length (strip line)) / 4.

(** The [répéter] branch: the only one that may append nothing. *)
Definition parse_repeter (indent stripped : str) : result (list str) :=
  let parts := split_ws stripped in
  if contains parts (u "pour") then
    var <- getitem parts 2 ;;
    last <- getitem parts (-1) ;;
    let lst := replace last (u ":") [] in
    PyOk [indent ++ u "for " ++ var ++ u " in " ++ lst ++ u ":"]
  else
    n <- getitem parts 1 ;;
    if isdigit n
    then PyOk [indent ++ u "for _ in range(" ++ n ++ u "):"]
    else PyOk [].

(** The chain of [if]/[elif] of the loop body: what one source line, given
    as its [indent] and its [stripped] text, appends to [python_lines]. *)
Definition parse_statement (indent stripped : str) : result (list str) :=
  if startswith stripped (u "dire(") then
    PyOk [indent ++ replace stripped (u "dire") (u "print")]
  else if startswith stripped (u "penser(") then
    PyOk [indent ++ u "print(" ++ [dq] ++ u "💭 " ++ slice stripped 7 (-1) ++ [dq] ++ u ")"]
  else if startswith stripped (u "répéter") then
    parse_repeter indent stripped
  else if startswith stripped (u "si") then
    PyOk [indent ++ u "if " ++ strip_chars (slice_from stripped 3) (u ":") ++ u ":"]
  else if startswith stripped (u "sinon si") then
    PyOk [indent ++ u "elif " ++ strip_chars (slice_from stripped 8) (u ":") ++ u ":"]
  else if startswith stripped (u "sinon") then
    PyOk [indent ++ u "else:"]
  else if startswith stripped (u "attendre(") then
    PyOk [indent ++ u "time.sleep(" ++ slice stripped 8 (-1) ++ u ")"]
  else if startswith stripped (u "variable") then
    PyOk [indent ++ strip (replace stripped (u "variable") [])]
  else if startswith stripped (u "changer") then
    var <- getitem (split_ws stripped) 1 ;;
    val <- getitem (split_ws stripped) 3 ;;
    PyOk [indent ++ var ++ u " += " ++ val]
  else if startswith stripped (u "incrémenter") then
    var <- getitem (split_ws stripped) 1 ;;
    PyOk [indent ++ var ++ u " += 1"]
  else if startswith stripped (u "mettre") then
    var <- getitem (split_ws stripped) 1 ;;
    val <- getitem (split_ws stripped) 3 ;;
    PyOk [indent ++ var ++ u " = " ++ val]
  else if startswith stripped (u "tant que") then
    PyOk [indent ++ u "while " ++ strip_chars (slice_from stripped 9) (u ":") ++ u ":"]
  else if startswith stripped (u "ajouter") then
    '(el, lst) <- unpack2 (split stripped (u " à ")) ;;
    PyOk [indent ++ lst ++ u ".append(" ++ strip (replace el (u "ajouter") []) ++ u ")"]
  else if startswith stripped (u "enlever") then
    '(el, lst) <- unpack2 (split stripped (u " de ")) ;;
    PyOk [indent ++ lst ++ u ".remove(" ++ strip (replace el (u "enlever") []) ++ u ")"]
  else if startswith stripped (u "liste") then
    PyOk [indent ++ strip (replace stripped (u "liste") [])]
  else if startswith stripped (u "fonction") then
    PyOk [indent ++ u "def " ++ strip (replace stripped (u "fonction") [])]
  else if startswith stripped (u "retourner") then
    PyOk [indent ++ u "return " ++ strip (replace stripped (u "retourner") [])]
  else if startswith stripped (u "quand_drapeau_clique") then
    PyOk [ [];
           indent ++ u "if __name__ == '__main__':";
           indent ++ u "    main()" ]
  else if startswith stripped (u "pause(") then
    PyOk [indent ++ u "time.sleep(" ++ slice stripped 6 (-1) ++ u ")"]
  else if startswith stripped (u "stopper()") then
    PyOk [indent ++ u "exit()"]
  else if startswith stripped (u "stopper_tout()") then
    PyOk [indent ++ u "os._exit(0)"]
  else if startswith stripped (u "déplacer(") then
    PyOk [indent ++ u "print('Déplacement de " ++ slice stripped 8 (-1) ++ u " unités')"]
  else if startswith stripped (u "tourner_droite(") then
    PyOk [indent ++ u "print('Rotation droite de " ++ slice stripped 15 (-1) ++ u " degrés')"]
  else if startswith stripped (u "aller_a(") then
    '(x, y) <- unpack2 (split (slice stripped 8 (-1)) (u ",")) ;;
    PyOk [indent ++ u "print('Aller à position (" ++ strip x ++ u ", " ++ strip y ++ u ")')"]
  else if startswith stripped (u "rebondir_si_bord()") then
    PyOk [indent ++ u "print('Rebond si bord détecté')"]
  else if startswith stripped (u "montrer()") then
    PyOk [indent ++ u "print('Objet visible')"]
  else if startswith stripped (u "cacher()") then
    PyOk [indent ++ u "print('Objet caché')"]
  else if startswith stripped (u "changer_couleur(") then
    PyOk [indent ++ u "print('Changement couleur en " ++ slice stripped 16 (-1) ++ u "')"]
  else if startswith stripped (u "jouer_son(") then
    PyOk [indent ++ u "print('Jouer son " ++ slice stripped 10 (-1) ++ u "')"]
  else if startswith stripped (u "arreter_son()") then
    PyOk [indent ++ u "print('Arrêt son')"]
  else if startswith stripped (u "changer_volume(") then
    PyOk [indent ++ u "print('Volume changé à " ++ slice stripped 15 (-1) ++ u "')"]
  else if startswith stripped (u "capteur_distance()") then
    PyOk [indent ++ u "distance = 0  # Valeur simulée"]
  else if startswith stripped (u "toucher()") then
    PyOk [indent ++ u "toucher = False  # Valeur simulée"]
  else if startswith stripped (u "couleur_détectée()") then
    PyOk [indent ++ u "couleur = 'rouge'  # Valeur simulée"]
  else if startswith stripped (u "détecter_objet(") then
    PyOk [indent ++ u "print('Détection objet dans " ++ slice stripped 15 (-1) ++ u "')"]
  else if startswith stripped (u "reconnaître_parole(") then
    PyOk [indent ++ u "print('Reconnaissance parole dans " ++ slice stripped 18 (-1) ++ u "')"]
  else if startswith stripped (u "ia_générer_texte(") then
    PyOk [indent ++ u "print('Génération texte pour " ++ slice stripped 17 (-1) ++ u "')"]
  else if startswith stripped (u "pour chaque") then
    '(var, range_part) <- unpack2 (split (slice_from stripped 12) (u " dans ")) ;;
    '(start, end_) <- unpack2 (split (replace range_part (u ":") []) (u "..")) ;;
    PyOk [indent ++ u "for " ++ var ++ u " in range(" ++ start ++ u ", " ++ end_ ++ u "+1):"]
  else if startswith stripped (u "longueur(") then
    PyOk [indent ++ u "len(" ++ slice stripped 9 (-1) ++ u ")"]
  else if startswith stripped (u "arrondi(") then
    PyOk [indent ++ u "round(" ++ slice stripped 8 (-1) ++ u ")"]
  else if startswith stripped (u "quand_touche_pressée(") then
    let key := slice stripped 20 (-2) in
    PyOk [indent ++ u "# Événement touche " ++ key ++ u " pressée"]
  else if startswith stripped (u "quand_cliqué") then
    PyOk [indent ++ u "# Événement clic souris"]
  else
    PyOk [indent ++ stripped].

(** One turn of the loop [for line in lines]: the lines it appends. *)
Definition parse_line (line : str) : result (list str) :=
  let stripped := strip line in
  let indent := str_mul (u "    ") (indent_level line) in
  parse_statement indent stripped.

(** The loop, threading [python_lines]; an exception leaves it at once. *)
Fixpoint parse_lines (lines : list str) (python_lines : list str)
  : result (list str) :=
  match lines with
  | [] => PyOk python_lines
  | line :: rest =>
    out <- parse_line line ;;
    parse_lines rest (python_lines ++ out)
  end.

Definition parse_code (code : str) : result str :=
  python_lines <- parse_lines (splitlines code) preamble ;;
  PyOk (join [nl] python_lines).

(** ** Debug instrumentation: the loop of [EduCodeApp.debug_code] *)

(** The statement appended before the line of index [i] (counted from 0,
    as [enumerate] does). *)
Definition trace (i : nat) (line : str) : str :=
  u "print('DEBUG: Ligne " ++ str_of_nat (i + 1) ++ u " - "
    ++ slice_to (strip line) 50 ++ u "')".

(** [for i, line in enumerate(...)], threading the list [debug_code]. *)
Fixpoint debug_loop (i : nat) (lines : list str) (debug_code : list str)
  : list str :=
  match lines with
  | [] => debug_code
  | line :: rest => debug_loop (S i) rest ((debug_code ++ [trace i line]) ++ [line])
  end.

Definition debug_lines (py_code : str) : list str :=
  debug_loop 0 (splitlines py_code) [].

Definition instrument (py_code : str) : str :=
  join [nl] (debug_lines py_code).

(** ** The execution harness: [run_code] and [debug_code] *)

Definition path := str.

(** The files that exist, with their contents. *)
Definition filesystem := path -> option str.

Definition write_file (fs : filesystem) (p : path) (content : str) : filesystem :=
  fun q => if str_eqb q p then Some content else fs q.

(** How [subprocess.run(..., capture_output=True, text=True, timeout=t)]
    ends: it returns a completed process, or it kills the child at the
    expiry of the timeout and raises [TimeoutExpired], which carries the
    output captured so far, or it raises another exception [e], of which
    [message] is [str(e)]. *)
Inductive run_outcome : Type :=
| CompletedProcess (returncode : Z) (stdout stderr : str)
| TimeoutExpired (stdout stderr : str)
| OtherException (message : str).

(** What the harness asks of the operating system: the name
    [NamedTemporaryFile] chooses, and the run of the interpreter on a file
    under a timeout in seconds, which may change the files. *)
Record OS : Type := {
  tempfile_name : filesystem -> path;
  subprocess_run : path -> Z -> filesystem -> run_outcome * filesystem
}.

(** The widgets the two methods read and write. *)
Record App : Type := {
  editor : str;
  console : str;
  status_bar : str
}.

Definition run_code (os : OS) (app : App) (fs : filesystem)
  : result (App * filesystem) :=
  let code := editor app in
  py_code <- parse_code code ;;
  let path := tempfile_name os fs in
  let fs := write_file fs path py_code in
  let '(outcome, fs) := subprocess_run os path 10 fs in
  let output :=
    match outcome with
    | CompletedProcess returncode stdout stderr =>
      let output := stdout ++ stderr in
      if (returncode =? 0)%Z
      then output ++ [nl] ++ u "✅ Code exécuté avec succès."
      else output
    | TimeoutExpired _ _ => u "⏱️ Erreur : le script a pris trop de temps."
    | OtherException message => u "❌ Erreur à l'exécution : " ++ message
    end in
  PyOk ({| editor := code; console := output; status_bar := u "Exécution terminée" |}, fs).

Definition debug_code (os : OS) (app : App) (fs : filesystem)
  : result (App * filesystem) :=
  let code := editor app in
  py_code <- parse_code code ;;
  let debug_code := instrument py_code in
  let path := tempfile_name os fs in
  let fs := write_file fs path debug_code in
  let '(outcome, fs) := subprocess_run os path 15 fs in
  let output :=
    match outcome with
    | CompletedProcess _ stdout stderr => stdout ++ stderr
    | TimeoutExpired _ _ => u "⏱️ Erreur : le script a pris trop de temps."
    | OtherException message => u "❌ Erreur à l'exécution : " ++ message
    end in
  PyOk ({| editor := code; console := output; status_bar := u "Débogage terminé" |}, fs).

(** ** Notions the properties are stated with *)

(** [sub in s]. *)
Fixpoint has_infix (sub s : str) : bool :=
  startswith s sub ||
  match s with
  | [] => false
  | _ :: r => has_infix sub r
  end.

(** The prefixes the chain of [parse_statement] tests, in its order. *)
Definition keywords : list str :=
  [ u "dire("; u "penser("; u "répéter"; u "si"; u "sinon si"; u "sinon";
    u "attendre("; u "variable"; u "changer"; u "incrémenter"; u "mettre";
    u "tant que"; u "ajouter"; u "enlever"; u "liste"; u "fonction";
    u "retourner"; u "quand_drapeau_clique"; u "pause("; u "stopper()";
    u "stopper_tout()"; u "déplacer("; u "tourner_droite("; u "aller_a(";
    u "rebondir_si_bord()"; u "montrer()"; u "cacher()"; u "changer_couleur(";
    u "jouer_son("; u "arreter_son()"; u "changer_volume(";
    u "capteur_distance()"; u "toucher()"; u "couleur_détectée()";
    u "détecter_objet("; u "reconnaître_parole("; u "ia_générer_texte(";
    u "pour chaque"; u "longueur("; u "arrondi("; u "quand_touche_pressée(";
    u "quand_cliqué" ].

(** No test of the chain succeeds: the line goes to the final [else]. *)
Definition matches_no_rule (stripped : str) : bool :=
  forallb (fun k => negb (startswith stripped k)) keywords.

(** Two prefixes some string can start with at once: one of them starts
    with the other. *)
Definition compatible (p q : str) : bool := startswith p q || startswith q p.

(** The number of whitespace characters a line begins with, and the
    indentation level the specification derives from it. *)
Definition leading_whitespace (line : str) : nat :=
  length line - length (lstrip line).

Definition spec_indent_level (line : str) : nat := leading_whitespace line / 4.

(** The statements the specification calls malformed: a mutate-by or a
    set-to line that has not four whitespace tokens, an append line without
    its separator, a remove line without its separator. *)
Definition malformed (stripped : str) : bool :=
  ((startswith stripped (u "changer") || startswith stripped (u "mettre"))
     && negb (length (split_ws stripped) =? 4))
  || (startswith stripped (u "ajouter") && negb (has_infix (u " à ") stripped))
  || (startswith stripped (u "enlever") && negb (has_infix (u " de ") stripped)).

(** An operating system for the examples: the temporary file is always
    given the same name, and the child process ends as [outcome] says
    without touching any file. *)
Definition quiet_os (outcome : run_outcome) : OS :=
  {| tempfile_name := fun _ => u "/tmp/tmpk3x9a_.py";
     subprocess_run := fun _ _ fs => (outcome, fs) |}.

Definition no_files : filesystem := fun _ => None.

Definition app_with (code : str) : App :=
  {| editor := code; console := []; status_bar := [] |}.

(** What [run_code] shows for each way the child process ends. *)
Definition run_output (outcome : run_outcome) : str :=
  match outcome with
  | CompletedProcess returncode stdout stderr =>
    if (returncode =? 0)%Z
    then (stdout ++ stderr) ++ [nl] ++ u "✅ Code exécuté avec succès."
    else stdout ++ stderr
  | TimeoutExpired _ _ => u "⏱️ Erreur : le script a pris trop de temps."
  | OtherException message => u "❌ Erreur à l'exécution : " ++ message
  end.

(** The temporary file is gone when [run_code] returns. *)
Definition run_code_removes_tempfile (os : OS) (app : App) (fs : filesystem) : Prop :=
  forall app' fs',
    run_code os app fs = PyOk (app', fs') -> fs' (tempfile_name os fs) = None.

(** The text shown after a timeout holds the output captured before it. *)
Definition timeout_keeps_output (os : OS) (app : App) (fs : filesystem) : Prop :=
  forall py_code stdout stderr fs1 app' fs',
    parse_code (editor app) = PyOk py_code ->
    subprocess_run os (tempfile_name os fs) 10
      (write_file fs (tempfile_name os fs) py_code) = (TimeoutExpired stdout stderr, fs1) ->
    run_code os app fs = PyOk (app', fs') ->
    has_infix stdout (console app') = true /\ has_infix stderr (console app') = true.

(** A source with a malformed line is translated without an exception
    escaping [parse_code]. *)
Definition malformed_does_not_crash (code : str) : Prop :=
  forall i raw,
    nth_error (splitlines code) i = Some raw ->
    malformed (strip raw) = true ->
    forall e, parse_code code <> PyRaise e.

(** ** Recent files: [EduCodeApp.add_recent_file] *)

(** [self.max_recent_files], set once by [__init__]. *)
Definition max_recent_files : nat := 5.

(** [l.remove(x)]: the first item equal to [x] goes, and [ValueError] is
    raised when there is none. *)
Fixpoint list_remove (l : list str) (x : str) : result (list str) :=
  match l with
  | [] => PyRaise ValueError
  | y :: r =>
    if str_eqb y x then PyOk r
    else r' <- list_remove r x ;; PyOk (y :: r')
  end.

(** The method, as a function from [self.recent_files] before the call
    to [self.recent_files] after it. *)
Definition add_recent_file (recent_files : list str) (path : str)
  : result (list str) :=
  recent_files <- (if contains recent_files path
                   then list_remove recent_files path
                   else PyOk recent_files) ;;
  let recent_files := path :: recent_files in
  if max_recent_files <? length recent_files
  then PyOk (slice_to recent_files (Z.of_nat max_recent_files))
  else PyOk recent_files.

(** ** The sidebar: [command_categories] and [insert_command] *)

(** The categories with their colour and their commands: the label of
    the button and the text the button inserts. *)
Definition command_categories : list (str * str * list (str * str)) :=
  [
    (u "Mouvement", u "#4C97FF",
      [(u "déplacer(x)",
        u "déplacer(10)");
       (u "tourner_droite(deg)",
        u "tourner_droite(15)");
       (u "aller_a(x, y)",
        u "aller_a(100, 200)");
       (u "rebondir_si_bord()",
        u "rebondir_si_bord()")]);
    (u "Apparence", u "#9966FF",
      [(u "dire(message)",
        u "dire(" ++ [dq] ++ u "Salut" ++ [dq] ++ u ")");
       (u "penser(message)",
        u "penser(" ++ [dq] ++ u "Hmm..." ++ [dq] ++ u ")");
       (u "montrer()",
        u "montrer()");
       (u "cacher()",
        u "cacher()");
       (u "changer_couleur(couleur)",
        u "changer_couleur(" ++ [dq] ++ u "rouge" ++ [dq] ++ u ")")]);
    (u "Contrôle", u "#FFAB19",
      [(u "répéter n fois",
        u "répéter 5 fois:" ++ [nl] ++ u "    dire(" ++ [dq] ++ u "Hello" ++ [dq] ++ u ")");
       (u "si condition",
        u "si x > 0:" ++ [nl] ++ u "    dire(" ++ [dq] ++ u "positif" ++ [dq] ++ u ")");
       (u "sinon si",
        u "sinon si x == 0:" ++ [nl] ++ u "    dire(" ++ [dq] ++ u "zéro" ++ [dq] ++ u ")");
       (u "sinon",
        u "sinon:" ++ [nl] ++ u "    dire(" ++ [dq] ++ u "négatif" ++ [dq] ++ u ")");
       (u "attendre n sec",
        u "attendre(1)")]);
    (u "Variables", u "#FF8C1A",
      [(u "définir variable",
        u "variable score = 0");
       (u "changer var de n",
        u "changer score de 1");
       (u "mettre var à n",
        u "mettre score à 10");
       (u "incrémenter var",
        u "incrémenter score")]);
    (u "Math", u "#FF6680",
      [(u "addition",
        u "variable total = 3 + 4");
       (u "soustraction",
        u "variable rest = 10 - 2");
       (u "multiplication",
        u "variable prod = 3 * 7");
       (u "division",
        u "variable div = 8 / 2");
       (u "modulo",
        u "variable mod = 10 % 3");
       (u "arrondi",
        u "variable arr = arrondi(3.6)")]);
    (u "Boucle", u "#0FA8A2",
      [(u "tant que",
        u "tant que x < 10:" ++ [nl] ++ u "    changer x de 1");
       (u "pour chaque",
        u "pour chaque i dans 1..10:" ++ [nl] ++ u "    dire(i)")]);
    (u "Listes", u "#FF61C3",
      [(u "créer liste",
        u "liste fruits = [" ++ [dq] ++ u "pomme" ++ [dq] ++ u ", " ++ [dq] ++ u "banane" ++ [dq] ++ u "]");
       (u "ajouter à liste",
        u "ajouter " ++ [dq] ++ u "orange" ++ [dq] ++ u " à fruits");
       (u "enlever de liste",
        u "enlever " ++ [dq] ++ u "pomme" ++ [dq] ++ u " de fruits");
       (u "parcourir liste",
        u "répéter pour élément dans fruits:" ++ [nl] ++ u "    dire(élément)");
       (u "longueur liste",
        u "variable nb = longueur(fruits)")]);
    (u "Fonctions", u "#7ED957",
      [(u "définir fonction",
        u "fonction dire_bonjour():" ++ [nl] ++ u "    dire(" ++ [dq] ++ u "Bonjour!" ++ [dq] ++ u ")");
       (u "fonction avec param",
        u "fonction saluer(nom):" ++ [nl] ++ u "    dire(" ++ [dq] ++ u "Bonjour " ++ [dq] ++ u " + nom)");
       (u "appeler fonction",
        u "dire_bonjour()");
       (u "retourner valeur",
        u "fonction double(x):" ++ [nl] ++ u "    retourner x * 2")]);
    (u "Événements", u "#FF6F59",
      [(u "quand drapeau cliqué",
        u "quand_drapeau_clique:" ++ [nl] ++ u "    dire(" ++ [dq] ++ u "C'est parti!" ++ [dq] ++ u ")");
       (u "quand touche pressée",
        u "quand_touche_pressée(" ++ [dq] ++ u "espace" ++ [dq] ++ u "):" ++ [nl] ++ u "    dire(" ++ [dq] ++ u "Espace!" ++ [dq] ++ u ")");
       (u "quand cliqué",
        u "quand_cliqué:" ++ [nl] ++ u "    dire(" ++ [dq] ++ u "Cliqué!" ++ [dq] ++ u ")")]);
    (u "Son", u "#9D4EDD",
      [(u "jouer son",
        u "jouer_son(" ++ [dq] ++ u "son.wav" ++ [dq] ++ u ")");
       (u "arrêter son",
        u "arreter_son()");
       (u "changer volume",
        u "changer_volume(50)")]);
    (u "Capteurs", u "#00BFFF",
      [(u "distance",
        u "distance = capteur_distance()");
       (u "toucher",
        u "si toucher():" ++ [nl] ++ u "    dire(" ++ [dq] ++ u "Touché!" ++ [dq] ++ u ")");
       (u "couleur_détectée",
        u "couleur = couleur_détectée()")]);
    (u "Contrôle avancé", u "#FFA500",
      [(u "pause",
        u "pause(2)");
       (u "stopper",
        u "stopper()");
       (u "stopper tout",
        u "stopper_tout()")]);
    (u "IA", u "#10A37F",
      [(u "détecter objet",
        u "objet = détecter_objet(image)");
       (u "reconnaître parole",
        u "texte = reconnaître_parole(audio)");
       (u "générer texte",
        u "texte = ia_générer_texte(prompt)")])
  ].

(** The text [insert_command] gives to [insertPlainText]; in an empty
    editor it is the whole source afterwards. *)
Definition inserted_text (command : str) : str := command ++ [nl].

Definition sidebar_commands : list str :=
  flat_map (fun category => map snd (snd category)) command_categories.

(** ** More notions for the properties *)

(** The prefixes of the rules that index the whitespace tokens of the
    line, and of the rules that unpack a split in two. *)
Definition index_rules : list str :=
  [ u "répéter"; u "changer"; u "incrémenter"; u "mettre" ].

Definition unpack_rules : list str :=
  [ u "ajouter"; u "enlever"; u "aller_a("; u "pour chaque" ].

Definition may_raise (stripped : str) : bool :=
  existsb (startswith stripped) (index_rules ++ unpack_rules).

(** What a turn of the loop can do with a line of content [s]. *)
Definition statement_shape (indent s : str) (r : result (list str)) : Prop :=
  (exists text, r = PyOk [indent ++ text])
  \/ (r = PyOk [ []; indent ++ u "if __name__ == '__main__':";
                  indent ++ u "    main()" ]
      /\ startswith s (u "quand_drapeau_clique") = true)
  \/ (r = PyOk [] /\ startswith s (u "répéter") = true)
  \/ (r = PyRaise IndexError /\ existsb (startswith s) index_rules = true)
  \/ (r = PyRaise ValueError /\ existsb (startswith s) unpack_rules = true).

(** A token: at least one character, none of them whitespace. *)
Definition is_word (w : str) : bool :=
  match w with
  | [] => false
  | _ => forallb (fun c => negb (isspace c)) w
  end.

(** A string [s.strip(':')] leaves as it is. *)
Definition colon_free_ends (s : str) : bool :=
  match s with
  | [] => true
  | c :: _ => negb (c =? 58)%N && negb (last s 0 =? 58)%N
  end.

(** ** Programs as lists of lines *)

(** A line: a string that holds no line boundary. *)
Definition line_free (l : str) : bool :=
  forallb (fun c => negb (is_linebreak c)) l.

(** A program without its last line when this line is empty. *)
Fixpoint drop_final_empty (prog : list str) : list str :=
  match prog with
  | [] => []
  | l :: rest =>
    match rest with
    | [] => match l with [] => [] | _ => [l] end
    | _ => l :: drop_final_empty rest
    end
  end.

(** The debug pass gives two lines for every line of the program [prog],
    a program being the list of its lines. *)
Definition debug_doubles_every_line (prog : list str) : Prop :=
  length (debug_lines (join [nl] prog)) = 2 * length prog.

(** A line no rule matches is given back as it is. *)
Definition fallback_returns_line_unchanged (line : str) : Prop :=
  matches_no_rule (strip line) = true -> parse_line line = PyOk [line].

(** * Properties *)

(** ** Strings *)

Lemma lstrip_length (s : str) : length (lstrip s) <= length s.
Proof.
  induction s as [|c r IH]; simpl; [lia|].
  destruct (isspace c); simpl; lia.
Qed.

Lemma lstrip_fixed_head (s : str) :
  lstrip s = s ->
  match s with [] => True | c :: _ => isspace c = false end.
Proof.
  destruct s as [|c r]; simpl; [trivial|].
  destruct (isspace c) eqn:E; [|reflexivity].
  intros H. pose proof (lstrip_length r) as L.
  rewrite H in L. simpl in L. lia.
Qed.

Lemma lstrip_idem (s : str) : lstrip (lstrip s) = lstrip s.
Proof.
  induction s as [|c r IH]; simpl; [reflexivity|].
  destruct (isspace c) eqn:E; [exact IH|].
  simpl. rewrite E. reflexivity.
Qed.

Lemma rstrip_idem (s : str) : rstrip (rstrip s) = rstrip s.
Proof.
  induction s as [|c r IH]; simpl; [reflexivity|].
  destruct (rstrip r) as [|d r'] eqn:E.
  - destruct (isspace c) eqn:Ec; simpl; [reflexivity|].
    rewrite Ec. reflexivity.
  - change (rstrip (c :: d :: r')) with
      (match rstrip (d :: r') with
       | [] => if isspace c then [] else [c]
       | x :: l => c :: x :: l
       end).
    rewrite IH. reflexivity.
Qed.

Lemma rstrip_head (c : char) (r : str) :
  isspace c = false -> exists r', rstrip (c :: r) = c :: r'.
Proof.
  intros Hc. simpl. destruct (rstrip r) as [|d r'].
  - rewrite Hc. now exists [].
  - now exists (d :: r').
Qed.

Lemma lstrip_rstrip (s : str) : lstrip s = s -> lstrip (rstrip s) = rstrip s.
Proof.
  intros H. apply lstrip_fixed_head in H.
  destruct s as [|c r]; [reflexivity|].
  destruct (rstrip_head c r H) as [r' ->].
  simpl. rewrite H. reflexivity.
Qed.

Lemma lstrip_strip (s : str) : lstrip (strip s) = strip s.
Proof. apply lstrip_rstrip, lstrip_idem. Qed.

Lemma strip_idem (s : str) : strip (strip s) = strip s.
Proof.
  unfold strip at 1. rewrite lstrip_strip.
  unfold strip. apply rstrip_idem.
Qed.

Lemma rstrip_length (s : str) : length (rstrip s) <= length s.
Proof.
  induction s as [|c r IH]; simpl; [lia|].
  destruct (rstrip r); [destruct (isspace c)|]; simpl in *; lia.
Qed.

Lemma strip_length (s : str) : length (strip s) <= length s.
Proof.
  unfold strip. pose proof (rstrip_length (lstrip s)).
  pose proof (lstrip_length s). lia.
Qed.

Lemma four_spaces : u "    " = [32; 32; 32; 32]%N.
Proof. reflexivity. Qed.

Lemma lstrip_indent (n : nat) (t : str) :
  lstrip (str_mul (u "    ") n ++ t) = lstrip t.
Proof.
  induction n as [|n IH]; [reflexivity|].
  simpl str_mul. rewrite four_spaces. simpl. exact IH.
Qed.

Lemma length_indent (n : nat) : length (str_mul (u "    ") n) = 4 * n.
Proof.
  induction n as [|n IH]; [reflexivity|].
  change (str_mul (u "    ") (S n)) with (u "    " ++ str_mul (u "    ") n).
  rewrite length_app, IH, four_spaces. simpl. lia.
Qed.

(** A line rebuilt from its level and its content is classified as the
    line it came from. *)
Lemma strip_indent_strip (n : nat) (line : str) :
  strip (str_mul (u "    ") n ++ strip line) = strip line.
Proof.
  unfold strip at 1. rewrite lstrip_indent, lstrip_strip.
  unfold strip. apply rstrip_idem.
Qed.

Lemma indent_level_indent_strip (n : nat) (line : str) :
  indent_level (str_mul (u "    ") n ++ strip line) = n.
Proof.
  unfold indent_level. rewrite strip_indent_strip, length_app, length_indent.
  replace (4 * n + length (strip line) - length (strip line)) with (n * 4) by lia.
  apply Nat.div_mul. discriminate.
Qed.

Lemma startswith_both (s p q : str) :
  startswith s p = true -> startswith s q = true -> compatible p q = true.
Proof.
  unfold compatible. revert p q.
  induction s as [|c s IH]; intros [|a p] [|b q]; simpl; try reflexivity;
    try discriminate; try (rewrite orb_true_r; reflexivity).
  intros H1 H2. apply andb_true_iff in H1 as [Ha Hp].
  apply andb_true_iff in H2 as [Hb Hq].
  apply N.eqb_eq in Ha, Hb. subst a b. rewrite N.eqb_refl. simpl.
  exact (IH p q Hp Hq).
Qed.

Lemma startswith_trans (s p q : str) :
  startswith s p = true -> startswith p q = true -> startswith s q = true.
Proof.
  revert s p. induction q as [|b q IH]; intros s p; [destruct s; reflexivity|].
  destruct p as [|a p]; [discriminate|].
  destruct s as [|c s]; [discriminate|]. simpl.
  intros H1 H2. apply andb_true_iff in H1 as [Ha Hp].
  apply andb_true_iff in H2 as [Hb Hq].
  apply N.eqb_eq in Ha, Hb. subst. rewrite N.eqb_refl. simpl.
  exact (IH s p Hp Hq).
Qed.

Lemma startswith_app (a b : str) : startswith (a ++ b) a = true.
Proof.
  induction a as [|c a IH]; simpl; [destruct b; reflexivity|].
  rewrite N.eqb_refl. exact IH.
Qed.

(** ** The chain of rules *)

(** A test of the chain on a prefix that cannot start a string starting
    with the prefix of [H] fails. *)
Ltac skip_rule H :=
  lazymatch goal with
  | |- (if startswith ?s ?k then _ else _) = _ =>
    let E := fresh "E" in
    let X := fresh "X" in
    destruct (startswith s k) eqn:E;
    [ exfalso; pose proof (startswith_both _ _ _ H E) as X;
      vm_compute in X; discriminate X
    | ]
  end.

Lemma getitem_nth {A} (l : list A) (n : nat) (x : A) :
  nth_error l n = Some x -> getitem l (Z.of_nat n) = PyOk x.
Proof.
  intros H. unfold getitem.
  destruct (Z.of_nat n <? 0)%Z eqn:E; [apply Z.ltb_lt in E; lia|].
  rewrite E, Nat2Z.id, H. reflexivity.
Qed.

Lemma getitem_short {A} (l : list A) (n : nat) :
  length l <= n -> getitem l (Z.of_nat n) = PyRaise IndexError.
Proof.
  intros H. unfold getitem.
  destruct (Z.of_nat n <? 0)%Z eqn:E; [apply Z.ltb_lt in E; lia|].
  rewrite E, Nat2Z.id.
  apply nth_error_None in H. rewrite H. reflexivity.
Qed.

(** Every line whose content starts with [sinon] is taken by the test on
    [si], the fourth of the chain. *)
Lemma statement_sinon (indent s : str) :
  startswith s (u "sinon") = true ->
  parse_statement indent s =
  PyOk [indent ++ u "if " ++ strip_chars (slice_from s 3) (u ":") ++ u ":"].
Proof.
  intros H. unfold parse_statement.
  do 3 skip_rule H.
  rewrite (startswith_trans s (u "sinon") (u "si") H eq_refl).
  reflexivity.
Qed.

(** Every line whose content starts with [changer] is taken by the
    mutate-by rule, the ninth of the chain. *)
Lemma statement_changer (indent s : str) :
  startswith s (u "changer") = true ->
  parse_statement indent s =
  (var <- getitem (split_ws s) 1 ;;
   val <- getitem (split_ws s) 3 ;;
   PyOk [indent ++ var ++ u " += " ++ val]).
Proof.
  intros H. unfold parse_statement.
  do 8 skip_rule H. rewrite H. reflexivity.
Qed.

Lemma statement_mettre (indent s : str) :
  startswith s (u "mettre") = true ->
  parse_statement indent s =
  (var <- getitem (split_ws s) 1 ;;
   val <- getitem (split_ws s) 3 ;;
   PyOk [indent ++ var ++ u " = " ++ val]).
Proof.
  intros H. unfold parse_statement.
  do 10 skip_rule H. rewrite H. reflexivity.
Qed.

Lemma statement_ajouter (indent s : str) :
  startswith s (u "ajouter") = true ->
  parse_statement indent s =
  ('(el, lst) <- unpack2 (split s (u " à ")) ;;
   PyOk [indent ++ lst ++ u ".append(" ++ strip (replace el (u "ajouter") []) ++ u ")"]).
Proof.
  intros H. unfold parse_statement.
  do 12 skip_rule H. rewrite H. reflexivity.
Qed.

Lemma statement_enlever (indent s : str) :
  startswith s (u "enlever") = true ->
  parse_statement indent s =
  ('(el, lst) <- unpack2 (split s (u " de ")) ;;
   PyOk [indent ++ lst ++ u ".remove(" ++ strip (replace el (u "enlever") []) ++ u ")"]).
Proof.
  intros H. unfold parse_statement.
  do 13 skip_rule H. rewrite H. reflexivity.
Qed.

Lemma statement_repeter (indent s : str) :
  startswith s (u "répéter") = true ->
  parse_statement indent s = parse_repeter indent s.
Proof.
  intros H. unfold parse_statement.
  do 2 skip_rule H. rewrite H. reflexivity.
Qed.

Lemma statement_fallback (indent s : str) :
  matches_no_rule s = true -> parse_statement indent s = PyOk [indent ++ s].
Proof.
  intros H. unfold matches_no_rule, keywords in H. cbn [forallb] in H.
  repeat (apply andb_true_iff in H;
          let E := fresh "E" in destruct H as [E H];
          apply negb_true_iff in E).
  unfold parse_statement.
  repeat match goal with
         | E : startswith s _ = false |- _ => rewrite E; clear E
         end.
  reflexivity.
Qed.

(** ** Priority of the conditional rules *)

(** C1.  The test on [si] stands before the tests on [sinon si] and on
    [sinon] in the chain, so every line whose content starts with [sinon]
    (an else-if header as well as a bare else) is translated by the
    conditional-open rule into an [if] header made of the content after
    its third character; the [elif] and [else] branches are never reached. *)
Theorem sinon_line_becomes_if (line : str) :
  startswith (strip line) (u "sinon") = true ->
  parse_line line =
  PyOk [str_mul (u "    ") (indent_level line) ++ u "if "
          ++ strip_chars (slice_from (strip line) 3) (u ":") ++ u ":"].
Proof.
  intros H. unfold parse_line. cbv zeta. apply statement_sinon, H.
Qed.

Lemma sinon_line_becomes_if_witness :
  parse_line (u "sinon si x == 0:") = PyOk [u "if on si x == 0:"]
  /\ parse_line (u "sinon:") = PyOk [u "if on:"].
Proof.
  split.
  - refine (eq_trans (sinon_line_becomes_if (u "sinon si x == 0:") _) _);
      vm_compute; reflexivity.
  - refine (eq_trans (sinon_line_becomes_if (u "sinon:") _) _);
      vm_compute; reflexivity.
Defined.

(** ** The set-color and set-volume statements *)

(** C8.  A line of the form [changer_couleur(ARG)] or [changer_volume(ARG)]
    starts with [changer], so the mutate-by rule takes it: the translation
    indexes the whitespace tokens of the line at 1 and at 3, and the
    branches that would print the description are never reached. *)
Theorem changer_couleur_taken_by_mutate_rule (line : str) :
  startswith (strip line) (u "changer_couleur(") = true
  \/ startswith (strip line) (u "changer_volume(") = true ->
  parse_line line =
  (var <- getitem (split_ws (strip line)) 1 ;;
   val <- getitem (split_ws (strip line)) 3 ;;
   PyOk [str_mul (u "    ") (indent_level line) ++ var ++ u " += " ++ val]).
Proof.
  intros H. unfold parse_line. cbv zeta. apply statement_changer.
  destruct H as [H|H];
    [ exact (startswith_trans _ _ (u "changer") H eq_refl)
    | exact (startswith_trans _ _ (u "changer") H eq_refl) ].
Qed.

Lemma changer_couleur_taken_by_mutate_rule_witness :
  parse_line (u "changer_couleur(rouge)") = PyRaise IndexError
  /\ parse_line (u "changer_volume(50)") = PyRaise IndexError
  /\ parse_line (u "changer_couleur(bleu ciel ou vert clair)") = PyOk [u "ciel += vert"].
Proof.
  split; [|split].
  - refine (eq_trans (changer_couleur_taken_by_mutate_rule _ (or_introl _)) _);
      vm_compute; reflexivity.
  - refine (eq_trans (changer_couleur_taken_by_mutate_rule _ (or_intror _)) _);
      vm_compute; reflexivity.
  - refine (eq_trans (changer_couleur_taken_by_mutate_rule _ (or_introl _)) _);
      vm_compute; reflexivity.
Defined.

(** ** Lines a rule produces *)

(** C5.  The counted-repeat rule has no branch for a line that neither
    holds the token [pour] nor has a number as its second token: such a
    line is recognised by the rule and appends nothing at all to the
    generated program. *)
Theorem repeter_without_count_appends_nothing (line n : str) :
  startswith (strip line) (u "répéter") = true ->
  contains (split_ws (strip line)) (u "pour") = false ->
  nth_error (split_ws (strip line)) 1 = Some n ->
  isdigit n = false ->
  parse_line line = PyOk [].
Proof.
  intros H Hpour Hn Hd. unfold parse_line. cbv zeta.
  rewrite (statement_repeter _ _ H). unfold parse_repeter.
  pose proof (getitem_nth _ 1 _ Hn) as G. change (Z.of_nat 1) with 1%Z in G.
  rewrite Hpour, G. simpl. rewrite Hd. reflexivity.
Qed.

Lemma repeter_without_count_appends_nothing_witness :
  parse_line (u "répéter x fois:") = PyOk []
  /\ parse_code (u "répéter x fois:" ++ [nl] ++ u "    dire(1)")
     = PyOk (join [nl] (preamble ++ [u "    print(1)"])).
Proof.
  split.
  - apply (repeter_without_count_appends_nothing (u "répéter x fois:") (u "x"));
      vm_compute; reflexivity.
  - vm_compute; reflexivity.
Defined.

(** ** The line classifier *)

Lemma rstrip_fixed_tail (c : char) (r : str) :
  rstrip (c :: r) = c :: r -> rstrip r = r.
Proof.
  simpl. destruct (rstrip r) as [|d r'].
  - destruct (isspace c); [discriminate|]. now intros [= <-].
  - now intros [= <-].
Qed.

Lemma strip_without_trailing_whitespace (line : str) :
  rstrip line = line -> strip line = lstrip line.
Proof.
  unfold strip. induction line as [|c r IH]; intros H; [reflexivity|].
  simpl lstrip. destruct (isspace c); [|exact H].
  apply IH. exact (rstrip_fixed_tail c r H).
Qed.

Lemma indent_level_is_leading (line : str) :
  rstrip line = line -> indent_level line = spec_indent_level line.
Proof.
  intros H. unfold indent_level, spec_indent_level, leading_whitespace.
  now rewrite (strip_without_trailing_whitespace line H).
Qed.

(** C6.  The level is computed from the length the whole [strip] removes,
    so whitespace at the end of a line counts as indentation.  On a line
    that ends with no whitespace the level is the one the specification
    gives, the number of leading whitespace characters divided by 4; but a
    line made of [x] and four spaces begins with no whitespace, the level
    the specification gives it is 0, and the translator gives it level 1
    and emits it indented by four spaces. *)
Theorem trailing_whitespace_counts_as_indentation :
  (forall line, rstrip line = line -> indent_level line = spec_indent_level line)
  /\ leading_whitespace (u "x    ") = 0
  /\ spec_indent_level (u "x    ") = 0
  /\ strip (u "x    ") = u "x"
  /\ indent_level (u "x    ") = 1
  /\ parse_line (u "x    ") = PyOk [u "    x"].
Proof.
  split.
  - intros line H. unfold indent_level, spec_indent_level, leading_whitespace.
    now rewrite (strip_without_trailing_whitespace line H).
  - split; [|split; [|split; [|split]]]; vm_compute; reflexivity.
Qed.

(** ** The fallback rule *)

Lemma leading_whitespace_indent (k : nat) (line : str) :
  leading_whitespace (str_mul (u "    ") k ++ strip line) = 4 * k.
Proof.
  unfold leading_whitespace.
  rewrite lstrip_indent, lstrip_strip, length_app, length_indent. lia.
Qed.

Lemma parse_line_of_indented_content (k : nat) (line : str) :
  matches_no_rule (strip line) = true ->
  parse_line (str_mul (u "    ") k ++ strip line)
  = PyOk [str_mul (u "    ") k ++ strip line].
Proof.
  intros H. unfold parse_line. cbv zeta.
  rewrite strip_indent_strip, indent_level_indent_strip.
  apply statement_fallback, H.
Qed.

(** C7.  A line without whitespace at its end whose content passes no
    test of the chain is emitted as its content behind four spaces per
    level, the level being the number of whitespace characters the line
    begins with divided by 4: leading whitespace is rounded down to a
    multiple of four spaces.  The emitted line begins with exactly these
    spaces, and translating it again gives it back unchanged; so does
    every line made of four spaces per level followed by its content. *)
Theorem fallback_emits_content_at_level (line : str) :
  matches_no_rule (strip line) = true ->
  rstrip line = line ->
  let generated := str_mul (u "    ") (leading_whitespace line / 4) ++ strip line in
  parse_line line = PyOk [generated]
  /\ leading_whitespace generated = 4 * (leading_whitespace line / 4)
  /\ strip generated = strip line
  /\ parse_line generated = PyOk [generated]
  /\ (forall k, line = str_mul (u "    ") k ++ strip line ->
                parse_line line = PyOk [line]).
Proof.
  intros H Hr generated. subst generated.
  split; [|split; [|split; [|split]]].
  - unfold parse_line. cbv zeta. rewrite (indent_level_is_leading line Hr).
    apply statement_fallback, H.
  - apply leading_whitespace_indent.
  - apply strip_indent_strip.
  - apply parse_line_of_indented_content, H.
  - intros k Hk. pose proof (parse_line_of_indented_content k line H) as E.
    now rewrite <- Hk in E.
Qed.

Lemma fallback_emits_content_at_level_witness :
  parse_line (u "      total = a + b") = PyOk [u "    total = a + b"]
  /\ parse_line (u "    total = a + b") = PyOk [u "    total = a + b"].
Proof.
  assert (E : matches_no_rule (strip (u "      total = a + b")) = true)
    by (vm_compute; reflexivity).
  assert (R : rstrip (u "      total = a + b") = u "      total = a + b")
    by (vm_compute; reflexivity).
  destruct (fallback_emits_content_at_level (u "      total = a + b") E R)
    as (H1 & _ & _ & H4 & _).
  split; [exact H1 | exact H4].
Defined.

(** C7 as the specification states it: the line [total = a + b] behind
    two spaces passes no test of the chain, and it is not given back
    unchanged: its two spaces are dropped. *)
Lemma fallback_rounds_indentation :
  ~ fallback_returns_line_unchanged (u "  total = a + b").
Proof.
  intros H.
  assert (E : matches_no_rule (strip (u "  total = a + b")) = true)
    by (vm_compute; reflexivity).
  specialize (H E). vm_compute in H. discriminate H.
Qed.

(** ** The loop over the source lines *)

Lemma parse_lines_ok (lines acc r : list str) :
  parse_lines lines acc = PyOk r -> exists body, r = acc ++ body.
Proof.
  revert acc. induction lines as [|line rest IH]; intros acc; simpl.
  - intros [= <-]. exists []. now rewrite app_nil_r.
  - destruct (parse_line line) as [out|e]; simpl; [|discriminate].
    intros H. destruct (IH _ H) as [body ->].
    exists (out ++ body). now rewrite app_assoc.
Qed.

Lemma parse_lines_raise (lines acc : list str) (e : exn) :
  parse_lines lines acc = PyRaise e ->
  exists line, In line lines /\ parse_line line = PyRaise e.
Proof.
  revert acc. induction lines as [|line rest IH]; intros acc; simpl;
    [discriminate|].
  destruct (parse_line line) as [out|e'] eqn:E; simpl.
  - intros H. destruct (IH _ H) as (l & Hin & Hl). exists l. auto.
  - intros [= ->]. exists line. auto.
Qed.

(** The loop stops at the first line that raises: the lines after it are
    not read. *)
Lemma parse_lines_stops (before after : list str) (line : str) (e : exn) :
  (forall l, In l before -> exists out, parse_line l = PyOk out) ->
  parse_line line = PyRaise e ->
  forall acc, parse_lines (before ++ line :: after) acc = PyRaise e.
Proof.
  intros Hb Hl. induction before as [|b before IH]; intros acc; simpl.
  - rewrite Hl. reflexivity.
  - destruct (Hb b (or_introl eq_refl)) as [out ->]. simpl.
    apply IH. intros l Hin. apply Hb. now right.
Qed.

Lemma parse_code_stops (code : str) (before after : list str) (line : str) (e : exn) :
  splitlines code = before ++ line :: after ->
  (forall l, In l before -> exists out, parse_line l = PyOk out) ->
  parse_line line = PyRaise e ->
  parse_code code = PyRaise e.
Proof.
  intros Hc Hb Hl. unfold parse_code.
  rewrite Hc, (parse_lines_stops before after line e Hb Hl). reflexivity.
Qed.

Lemma join_app (sep : str) (p b : list str) :
  p <> [] -> b <> [] -> join sep (p ++ b) = join sep p ++ sep ++ join sep b.
Proof.
  intros Hp Hb. induction p as [|a p IH]; [contradiction|].
  destruct p as [|a2 p].
  - destruct b as [|c b]; [contradiction|]. reflexivity.
  - change (join sep ((a :: a2 :: p) ++ b))
      with (a ++ sep ++ join sep ((a2 :: p) ++ b)).
    rewrite IH by discriminate.
    change (join sep (a :: a2 :: p)) with (a ++ sep ++ join sep (a2 :: p)).
    now rewrite <- !app_assoc.
Qed.

Lemma join_prefix (sep : str) (p b : list str) :
  startswith (join sep (p ++ b)) (join sep p) = true.
Proof.
  destruct b as [|c b]; [rewrite app_nil_r, <- (app_nil_r (join sep p)) at 1;
                         apply startswith_app|].
  destruct p as [|a p]; [now destruct (join sep ([] ++ c :: b))|].
  rewrite join_app by discriminate. apply startswith_app.
Qed.

(** ** The preamble *)

(** C10.  Whatever the source, when [parse_code] returns a program this
    program is the five lines of the preamble followed by the lines of the
    body, joined by line feeds, and so begins with the preamble (when it
    returns none, a line of the source raised); the empty source gives the
    preamble alone, whose fifth line is empty and after which nothing
    follows. *)
Theorem parse_code_preamble (code : str) :
  match parse_code code with
  | PyOk out =>
    exists body,
      out = join [nl] (preamble ++ body)
      /\ startswith out (join [nl] preamble) = true
  | PyRaise e =>
    exists line, In line (splitlines code) /\ parse_line line = PyRaise e
  end
  /\ parse_code [] = PyOk (join [nl] preamble)
  /\ length preamble = 5
  /\ join [nl] preamble
     = u "# -*- coding: utf-8 -*-" ++ [nl] ++ u "# Code généré par EduCode" ++ [nl]
         ++ u "import time" ++ [nl] ++ u "import math" ++ [nl].
Proof.
  split; [|split; [|split]].
  - unfold parse_code.
    destruct (parse_lines (splitlines code) preamble) as [r|e] eqn:E;
      unfold bind.
    + destruct (parse_lines_ok _ _ _ E) as [body ->].
      exists body. split; [reflexivity|apply join_prefix].
    + exact (parse_lines_raise _ _ _ E).
  - vm_compute; reflexivity.
  - reflexivity.
  - vm_compute; reflexivity.
Qed.

(** ** Debug instrumentation *)

Lemma slice_to_firstn {A} (s : list A) (n : nat) :
  slice_to s (Z.of_nat n) = firstn n s.
Proof.
  unfold slice_to, clip.
  destruct (Z.of_nat n <? 0)%Z eqn:E; [apply Z.ltb_lt in E; lia|].
  rewrite Nat2Z.id.
  destruct (Nat.le_ge_cases n (length s)) as [H|H].
  - now rewrite Nat.min_l.
  - rewrite Nat.min_r by exact H. now rewrite !firstn_all2 by lia.
Qed.

Lemma debug_loop_length (lines : list str) (i : nat) (acc : list str) :
  length (debug_loop i lines acc) = length acc + 2 * length lines.
Proof.
  revert i acc. induction lines as [|l rest IH]; intros i acc; simpl; [lia|].
  rewrite IH, !length_app. simpl. lia.
Qed.

Lemma debug_loop_keeps (lines : list str) (i : nat) (acc : list str) (k : nat) :
  k < length acc -> nth_error (debug_loop i lines acc) k = nth_error acc k.
Proof.
  revert i acc. induction lines as [|l rest IH]; intros i acc Hk; simpl;
    [reflexivity|].
  rewrite IH by (rewrite !length_app; simpl; lia).
  rewrite <- app_assoc. now rewrite nth_error_app1.
Qed.

Lemma debug_loop_nth (lines : list str) (i : nat) (acc : list str) (j : nat) (line : str) :
  nth_error lines j = Some line ->
  nth_error (debug_loop i lines acc) (length acc + 2 * j) = Some (trace (i + j) line)
  /\ nth_error (debug_loop i lines acc) (length acc + 2 * j + 1) = Some line.
Proof.
  revert i acc j. induction lines as [|l rest IH]; intros i acc j;
    [destruct j; discriminate|].
  cbn [debug_loop]. destruct j as [|j]; cbn [nth_error].
  - intros [= ->].
    assert (L : length ((acc ++ [trace i line]) ++ [line]) = length acc + 2)
      by (rewrite !length_app; simpl; lia).
    rewrite !debug_loop_keeps by lia.
    rewrite <- app_assoc. replace (i + 0) with i by lia.
    replace (length acc + 2 * 0) with (length acc) by lia. split.
    + rewrite nth_error_app2 by lia.
      now replace (length acc - length acc) with 0 by lia.
    + rewrite nth_error_app2 by lia.
      now replace (length acc + 1 - length acc) with 1 by lia.
  - intros H. destruct (IH (S i) ((acc ++ [trace i l]) ++ [l]) j H) as [H1 H2].
    assert (L : length ((acc ++ [trace i l]) ++ [l]) = length acc + 2)
      by (rewrite !length_app; simpl; lia).
    rewrite L in H1, H2.
    replace (length acc + 2 * S j) with (length acc + 2 + 2 * j) by lia.
    replace (i + S j) with (S i + j) by lia.
    split; assumption.
Qed.

(** The list the loop of [debug_code] builds from a text, in terms of
    the lines [splitlines] finds in this text. *)
Lemma debug_lines_of_text (py_code : str) :
  let lines := splitlines py_code in
  let debug := debug_lines py_code in
  length debug = 2 * length lines
  /\ (forall i line,
        nth_error lines i = Some line ->
        nth_error debug (2 * i)
        = Some (u "print('DEBUG: Ligne " ++ str_of_nat (i + 1) ++ u " - "
                  ++ firstn 50 (strip line) ++ u "')")
        /\ length (firstn 50 (strip line)) <= 50
        /\ nth_error debug (2 * i + 1) = Some line)
  /\ (forall line1 line2,
        lines = [line1; line2] ->
        debug = [trace 0 line1; line1; trace 1 line2; line2])
  /\ instrument py_code = join [nl] debug.
Proof.
  intros lines debug. subst lines debug. unfold debug_lines.
  split; [|split; [|split]].
  - rewrite debug_loop_length. reflexivity.
  - intros i line H.
    destruct (debug_loop_nth _ 0 [] i line H) as [H1 H2].
    change (length (@nil str) + 2 * i) with (2 * i) in H1, H2.
    change (0 + i) with i in H1.
    split; [|split].
    + rewrite H1. unfold trace.
      change 50%Z with (Z.of_nat 50). now rewrite slice_to_firstn.
    + apply firstn_le_length.
    + exact H2.
  - intros line1 line2 ->. reflexivity.
  - reflexivity.
Qed.

(** *** Programs given as lists of lines *)

Lemma splitlines_from_line (l cur rest : str) :
  line_free l = true ->
  splitlines_from false cur (l ++ rest) = splitlines_from false (cur ++ l) rest.
Proof.
  revert cur. induction l as [|c l IH]; intros cur H.
  - now rewrite app_nil_r.
  - unfold line_free in H. cbn [forallb] in H.
    apply andb_true_iff in H as [Hc Hl]. apply negb_true_iff in Hc.
    change ((c :: l) ++ rest) with (c :: (l ++ rest)).
    cbn [splitlines_from andb]. rewrite Hc, (IH _ Hl), <- app_assoc.
    reflexivity.
Qed.

Lemma splitlines_from_nl (cur rest : str) :
  splitlines_from false cur (nl :: rest) = cur :: splitlines_from false [] rest.
Proof. reflexivity. Qed.

(** The lines found in the text of a program are its lines, but for a
    last line that is empty. *)
Lemma splitlines_join (prog : list str) :
  Forall (fun l => line_free l = true) prog ->
  splitlines (join [nl] prog) = drop_final_empty prog.
Proof.
  unfold splitlines. induction 1 as [|l prog Hl _ IH]; [reflexivity|].
  destruct prog as [|l2 prog].
  - cbn [join drop_final_empty].
    pose proof (splitlines_from_line l [] [] Hl) as E.
    rewrite app_nil_r in E. cbn [app] in E. rewrite E.
    destruct l; reflexivity.
  - change (join [nl] (l :: l2 :: prog)) with (l ++ nl :: join [nl] (l2 :: prog)).
    rewrite (splitlines_from_line l [] _ Hl). cbn [app].
    rewrite splitlines_from_nl, IH. reflexivity.
Qed.

Lemma drop_final_empty_last (init : list str) (l : str) :
  l <> [] -> drop_final_empty (init ++ [l]) = init ++ [l].
Proof.
  intros Hl. induction init as [|a init IH].
  - cbn. destruct l; [contradiction|reflexivity].
  - change ((a :: init) ++ [l]) with (a :: (init ++ [l])).
    cbn [drop_final_empty]. rewrite IH.
    destruct (init ++ [l]) eqn:E; [destruct init; discriminate E|reflexivity].
Qed.

Lemma drop_final_empty_blank (init : list str) :
  drop_final_empty (init ++ [[]]) = init.
Proof.
  induction init as [|a init IH]; [reflexivity|].
  change ((a :: init) ++ [[]]) with (a :: (init ++ [[]])).
  cbn [drop_final_empty]. rewrite IH.
  destruct (init ++ [[]]) eqn:E; [destruct init; discriminate E|reflexivity].
Qed.

Lemma drop_final_empty_line_free (prog : list str) :
  Forall (fun l => line_free l = true) prog ->
  Forall (fun l => line_free l = true) (drop_final_empty prog).
Proof.
  induction 1 as [|l prog Hl Hp IH]; [constructor|].
  cbn [drop_final_empty]. destruct prog as [|l2 prog].
  - destruct l; constructor; [exact Hl|constructor].
  - constructor; [exact Hl|exact IH].
Qed.

Lemma line_free_app (a b : str) :
  line_free (a ++ b) = line_free a && line_free b.
Proof. apply forallb_app. Qed.

Lemma line_free_lstrip (l : str) :
  line_free l = true -> line_free (lstrip l) = true.
Proof.
  induction l as [|c r IH]; [trivial|]. intros H. cbn [lstrip].
  destruct (isspace c); [|exact H].
  unfold line_free in H. cbn [forallb] in H.
  apply andb_true_iff in H as [_ Hr]. exact (IH Hr).
Qed.

Lemma line_free_rstrip (l : str) :
  line_free l = true -> line_free (rstrip l) = true.
Proof.
  unfold line_free. induction l as [|c r IH]; [trivial|]. intros H.
  cbn [forallb] in H. apply andb_true_iff in H as [Hc Hr].
  specialize (IH Hr). cbn [rstrip]. destruct (rstrip r) as [|d r'].
  - destruct (isspace c); [reflexivity|]. cbn [forallb]. now rewrite Hc.
  - change (forallb (fun c0 => negb (is_linebreak c0)) (c :: d :: r'))
      with (negb (is_linebreak c)
            && forallb (fun c0 => negb (is_linebreak c0)) (d :: r')).
    now rewrite Hc, IH.
Qed.

Lemma line_free_firstn (n : nat) (l : str) :
  line_free l = true -> line_free (firstn n l) = true.
Proof.
  unfold line_free. revert n. induction l as [|c r IH]; intros [|n] H;
    try reflexivity.
  cbn [forallb firstn] in *. apply andb_true_iff in H as [Hc Hr].
  now rewrite Hc, (IH n Hr).
Qed.

Lemma line_free_digits (d : Decimal.uint) : line_free (digits_of_uint d) = true.
Proof. induction d; [reflexivity|exact IHd..]. Qed.

Lemma line_free_trace (i : nat) (line : str) :
  line_free line = true -> line_free (trace i line) = true.
Proof.
  intros H. unfold trace. change 50%Z with (Z.of_nat 50).
  rewrite slice_to_firstn, !line_free_app.
  assert (A1 : line_free (u "print('DEBUG: Ligne ") = true) by reflexivity.
  assert (A2 : line_free (u " - ") = true) by reflexivity.
  assert (A3 : line_free (u "')") = true) by reflexivity.
  unfold str_of_nat. rewrite A1, A2, A3, line_free_digits.
  unfold strip. now rewrite line_free_firstn by now apply line_free_rstrip, line_free_lstrip.
Qed.

Lemma debug_loop_line_free (lines : list str) (i : nat) (acc : list str) :
  Forall (fun l => line_free l = true) lines ->
  Forall (fun l => line_free l = true) acc ->
  Forall (fun l => line_free l = true) (debug_loop i lines acc).
Proof.
  intros Hl. revert i acc. induction Hl as [|l lines H _ IH]; intros i acc Ha;
    cbn [debug_loop]; [exact Ha|].
  apply IH. rewrite !Forall_app. repeat split; [exact Ha|..].
  - constructor; [now apply line_free_trace|constructor].
  - constructor; [exact H|constructor].
Qed.

(** C9.  The pass works on the lines [splitlines] finds in the text of
    the program.  For a program given as the list of its [n] lines these
    are the [n] lines when the last one is not empty, and the first
    [n - 1] when it is empty: a final empty line gets no trace and is
    left out.  For the [m] lines found, the list [debug_code] has [2 m]
    lines: at index [2 i] the statement that prints the counter [i + 1]
    and the first 50 characters at most of the content of line [i], at
    index [2 i + 1] line [i] itself, unchanged; a program of two lines of
    which the second is not empty gives four.  The instrumented program
    is this list joined by line feeds, and read again line by line it
    gives this list but for a last line that is empty. *)
Theorem debug_instrumentation_of_program (prog : list str) :
  Forall (fun l => line_free l = true) prog ->
  let lines := drop_final_empty prog in
  let debug := debug_lines (join [nl] prog) in
  splitlines (join [nl] prog) = lines
  /\ (forall init l, prog = init ++ [l] ->
                     (l <> [] -> lines = prog) /\ (l = [] -> lines = init))
  /\ length debug = 2 * length lines
  /\ (forall i line,
        nth_error lines i = Some line ->
        nth_error debug (2 * i)
        = Some (u "print('DEBUG: Ligne " ++ str_of_nat (i + 1) ++ u " - "
                  ++ firstn 50 (strip line) ++ u "')")
        /\ length (firstn 50 (strip line)) <= 50
        /\ nth_error debug (2 * i + 1) = Some line)
  /\ (forall line1 line2,
        prog = [line1; line2] -> line2 <> [] ->
        debug = [trace 0 line1; line1; trace 1 line2; line2])
  /\ instrument (join [nl] prog) = join [nl] debug
  /\ splitlines (instrument (join [nl] prog)) = drop_final_empty debug.
Proof.
  intros F lines debug. subst lines debug.
  pose proof (splitlines_join prog F) as S.
  pose proof (debug_lines_of_text (join [nl] prog)) as D. cbv zeta in D.
  rewrite S in D. destruct D as (D1 & D2 & D3 & D4).
  split; [exact S|]. split; [|split; [exact D1|split; [exact D2|split; [|split]]]].
  - intros init l ->. split.
    + intros Hl. now apply drop_final_empty_last.
    + intros ->. apply drop_final_empty_blank.
  - intros line1 line2 -> Hl. apply D3.
    exact (drop_final_empty_last [line1] line2 Hl).
  - exact D4.
  - unfold instrument. apply splitlines_join.
    unfold debug_lines. rewrite S.
    apply debug_loop_line_free; [now apply drop_final_empty_line_free|constructor].
Qed.

Lemma debug_instrumentation_of_program_witness :
  splitlines (join [nl] preamble)
  = [ u "# -*- coding: utf-8 -*-"; u "# Code généré par EduCode";
      u "import time"; u "import math" ]
  /\ length (debug_lines (join [nl] preamble)) = 2 * 4
  /\ nth_error (debug_lines (join [nl] (preamble ++ [u "    print(1)"]))) 10
     = Some (u "print('DEBUG: Ligne 6 - print(1)')").
Proof.
  assert (F : Forall (fun l => line_free l = true) (preamble ++ [u "    print(1)"])).
  { unfold preamble. cbn [app].
    repeat (constructor; [vm_compute; reflexivity|]). constructor. }
  assert (F0 : Forall (fun l => line_free l = true) preamble).
  { unfold preamble.
    repeat (constructor; [vm_compute; reflexivity|]). constructor. }
  destruct (debug_instrumentation_of_program preamble F0) as (H1 & _ & H3 & _).
  destruct (debug_instrumentation_of_program _ F) as (_ & _ & _ & H4 & _).
  destruct (H4 5 (u "    print(1)") eq_refl) as (H5 & _).
  split; [exact H1|]. split; [exact H3|exact H5].
Defined.

(** C9 as the specification states it: the program translated from the
    empty source has five lines, the fifth of them empty, and the list
    [debug_code] built from it has eight lines, not ten. *)
Lemma debug_skips_final_empty_line : ~ debug_doubles_every_line preamble.
Proof.
  unfold debug_doubles_every_line. intros H. vm_compute in H. discriminate H.
Qed.

(** ** Statements without the expected shape *)

Lemma getitem_raises_index_error {A} (l : list A) (i : Z) (e : exn) :
  getitem l i = PyRaise e -> e = IndexError.
Proof.
  unfold getitem.
  destruct ((if (i <? 0)%Z then (i + Z.of_nat (length l))%Z else i) <? 0)%Z;
    [now intros [= <-]|].
  destruct (nth_error l _); [discriminate | now intros [= <-]].
Qed.

(** Indexing the tokens at 1, then at 3, when there are fewer than four. *)
Lemma two_tokens_short (parts : list str) (k : str -> str -> result (list str)) :
  length parts < 4 ->
  (var <- getitem parts 1 ;; val <- getitem parts 3 ;; k var val)
  = PyRaise IndexError.
Proof.
  intros H. destruct (getitem parts 1) as [var|e] eqn:E1; unfold bind at 1.
  - change 3%Z with (Z.of_nat 3). rewrite getitem_short by lia. reflexivity.
  - now rewrite (getitem_raises_index_error _ _ _ E1).
Qed.

Lemma two_tokens_found (parts : list str) (k : str -> str -> result (list str))
      (var val : str) :
  nth_error parts 1 = Some var -> nth_error parts 3 = Some val ->
  (var <- getitem parts 1 ;; val <- getitem parts 3 ;; k var val) = k var val.
Proof.
  intros H1 H3.
  change 1%Z with (Z.of_nat 1). change 3%Z with (Z.of_nat 3).
  rewrite (getitem_nth _ _ _ H1), (getitem_nth _ _ _ H3). reflexivity.
Qed.

Lemma unpack2_wrong_length {A} (l : list A) :
  length l <> 2 -> unpack2 l = PyRaise ValueError.
Proof.
  destruct l as [|a [|b [|c l]]]; simpl; intros H; try reflexivity.
  now contradiction H.
Qed.

Lemma has_infix_false (sep : str) (c : char) (r : str) :
  has_infix sep (c :: r) = false ->
  startswith (c :: r) sep = false /\ has_infix sep r = false.
Proof.
  intros H. change (has_infix sep (c :: r))
    with (startswith (c :: r) sep || has_infix sep r) in H.
  now apply orb_false_iff in H.
Qed.

Lemma split_from_without_separator (sep s cur : str) :
  has_infix sep s = false -> split_from sep 0 cur s = [cur ++ s].
Proof.
  revert cur. induction s as [|c r IH]; intros cur H.
  - cbn [split_from]. now rewrite app_nil_r.
  - apply has_infix_false in H as [H1 H2].
    change (split_from sep 0 cur (c :: r))
      with (if startswith (c :: r) sep
            then cur :: split_from sep (length sep - 1) [] r
            else split_from sep 0 (cur ++ [c]) r).
    rewrite H1, (IH _ H2), <- app_assoc. reflexivity.
Qed.

(** A string that does not hold the separator is not split. *)
Lemma split_without_separator (sep s : str) :
  has_infix sep s = false -> split s sep = [s].
Proof. intros H. exact (split_from_without_separator sep s [] H). Qed.


(** C3.  The translator has no report of malformed statements.  A
    mutate-by or set-to line with fewer than four whitespace tokens raises
    [IndexError], and an append or remove line that its separator does not
    split in exactly two (in particular one without the separator) raises
    [ValueError]; the exception leaves [parse_code] at the first such line,
    whatever the lines after it, and carries neither a line number nor the
    text of the line.  With four tokens or more nothing is raised: the
    second and the fourth token are used and the others ignored. *)
Theorem malformed_statement_behaviour
        (code : str) (before after : list str) (line : str) :
  splitlines code = before ++ line :: after ->
  (forall l, In l before -> exists out, parse_line l = PyOk out) ->
  let s := strip line in
  let indent := str_mul (u "    ") (indent_level line) in
  ((startswith s (u "changer") = true \/ startswith s (u "mettre") = true) ->
   length (split_ws s) < 4 ->
   parse_code code = PyRaise IndexError)
  /\ (startswith s (u "ajouter") = true ->
      length (split s (u " à ")) <> 2 ->
      parse_code code = PyRaise ValueError)
  /\ (startswith s (u "enlever") = true ->
      length (split s (u " de ")) <> 2 ->
      parse_code code = PyRaise ValueError)
  /\ (has_infix (u " à ") s = false -> length (split s (u " à ")) <> 2)
  /\ (has_infix (u " de ") s = false -> length (split s (u " de ")) <> 2)
  /\ (forall var val,
        nth_error (split_ws s) 1 = Some var ->
        nth_error (split_ws s) 3 = Some val ->
        (startswith s (u "changer") = true ->
         parse_line line = PyOk [indent ++ var ++ u " += " ++ val])
        /\ (startswith s (u "mettre") = true ->
            parse_line line = PyOk [indent ++ var ++ u " = " ++ val])).
Proof.
  intros Hc Hb s indent.
  assert (stops : forall e, parse_line line = PyRaise e -> parse_code code = PyRaise e)
    by (intros e; apply (parse_code_stops code before after line e Hc Hb)).
  split; [|split; [|split; [|split; [|split]]]].
  - intros [H|H] Hlen; apply stops; unfold parse_line; cbv zeta.
    + rewrite (statement_changer _ _ H). now apply two_tokens_short.
    + rewrite (statement_mettre _ _ H). now apply two_tokens_short.
  - intros H Hlen. apply stops. unfold parse_line. cbv zeta.
    rewrite (statement_ajouter _ _ H), (unpack2_wrong_length _ Hlen). reflexivity.
  - intros H Hlen. apply stops. unfold parse_line. cbv zeta.
    rewrite (statement_enlever _ _ H), (unpack2_wrong_length _ Hlen). reflexivity.
  - intros H. rewrite (split_without_separator _ _ H). discriminate.
  - intros H. rewrite (split_without_separator _ _ H). discriminate.
  - intros var val H1 H3. split; intros H; unfold parse_line; cbv zeta.
    + rewrite (statement_changer _ _ H).
      exact (two_tokens_found _ (fun var val => PyOk [_ ++ var ++ _ ++ val]) _ _ H1 H3).
    + rewrite (statement_mettre _ _ H).
      exact (two_tokens_found _ (fun var val => PyOk [_ ++ var ++ _ ++ val]) _ _ H1 H3).
Qed.

Lemma malformed_statement_behaviour_witness :
  parse_code (u "dire(1)" ++ [nl] ++ u "changer score de" ++ [nl] ++ u "ajouter x")
  = PyRaise IndexError
  /\ parse_code (u "enlever x" ++ [nl] ++ u "mettre score à")
     = PyRaise ValueError
  /\ parse_line (u "changer score de 1 2") = PyOk [u "score += 1"].
Proof.
  split; [|split].
  - refine (proj1 (malformed_statement_behaviour _ [u "dire(1)"]
                     [u "ajouter x"] (u "changer score de") _ _) _ _).
    + vm_compute; reflexivity.
    + intros l [<-|[]]. eexists. vm_compute; reflexivity.
    + left. vm_compute; reflexivity.
    + vm_compute. lia.
  - refine (proj1 (proj2 (proj2 (malformed_statement_behaviour _ []
                     [u "mettre score à"] (u "enlever x") _ _))) _ _).
    + vm_compute; reflexivity.
    + intros l [].
    + vm_compute; reflexivity.
    + vm_compute. discriminate.
  - refine (proj1 (proj2 (proj2 (proj2 (proj2 (proj2
              (malformed_statement_behaviour (u "changer score de 1 2") [] []
                 (u "changer score de 1 2") _ _))))) (u "score") (u "1") _ _) _).
    + vm_compute; reflexivity.
    + intros l [].
    + vm_compute; reflexivity.
    + vm_compute; reflexivity.
    + vm_compute; reflexivity.
Defined.

(** C3 as the specification states it: the source made of the line [changer score de],
    a mutate-by statement of three tokens, is not reported: translating it
    raises [IndexError]. *)
Lemma malformed_statement_crashes :
  ~ malformed_does_not_crash (u "changer score de").
Proof.
  intros H.
  apply (H 0 (u "changer score de") eq_refl eq_refl IndexError).
  vm_compute; reflexivity.
Qed.

(** ** The execution harness *)

Lemma str_eqb_refl (s : str) : str_eqb s s = true.
Proof.
  induction s as [|c s IH]; simpl; [reflexivity|].
  now rewrite N.eqb_refl.
Qed.

Lemma write_file_read (fs : filesystem) (p : path) (content : str) :
  write_file fs p content p = Some content.
Proof. unfold write_file. now rewrite str_eqb_refl. Qed.

Lemma run_code_returns (os : OS) (app : App) (fs : filesystem)
      (py_code : str) (outcome : run_outcome) (fs1 : filesystem) :
  parse_code (editor app) = PyOk py_code ->
  subprocess_run os (tempfile_name os fs) 10
    (write_file fs (tempfile_name os fs) py_code) = (outcome, fs1) ->
  run_code os app fs
  = PyOk ({| editor := editor app; console := run_output outcome;
             status_bar := u "Exécution terminée" |}, fs1).
Proof.
  intros Hp Hr. unfold run_code. rewrite Hp. unfold bind. cbv zeta.
  rewrite Hr. unfold run_output. reflexivity.
Qed.

Lemma debug_code_returns (os : OS) (app : App) (fs : filesystem)
      (py_code : str) (outcome : run_outcome) (fs1 : filesystem) :
  parse_code (editor app) = PyOk py_code ->
  subprocess_run os (tempfile_name os fs) 15
    (write_file fs (tempfile_name os fs) (instrument py_code)) = (outcome, fs1) ->
  exists app', debug_code os app fs = PyOk (app', fs1).
Proof.
  intros Hp Hr. unfold debug_code. rewrite Hp. unfold bind. cbv zeta.
  rewrite Hr. eexists. reflexivity.
Qed.

(** C2.  Neither method removes the temporary file.  The program is
    written to it before the launch, and whatever the way the child
    process ends (exit code 0 or not, timeout, failure of the launch) the
    files at the return of the call are exactly those the child process
    left: the file is still there unless the child removed it. *)
Theorem tempfile_left_in_place
        (os : OS) (app : App) (fs : filesystem) (py_code : str) :
  parse_code (editor app) = PyOk py_code ->
  let path := tempfile_name os fs in
  write_file fs path py_code path = Some py_code
  /\ write_file fs path (instrument py_code) path = Some (instrument py_code)
  /\ (forall outcome fs1,
        subprocess_run os path 10 (write_file fs path py_code) = (outcome, fs1) ->
        exists app', run_code os app fs = PyOk (app', fs1))
  /\ (forall outcome fs1,
        subprocess_run os path 15 (write_file fs path (instrument py_code))
        = (outcome, fs1) ->
        exists app', debug_code os app fs = PyOk (app', fs1)).
Proof.
  intros Hp path. split; [|split; [|split]].
  - apply write_file_read.
  - apply write_file_read.
  - intros outcome fs1 Hr.
    eexists. exact (run_code_returns os app fs _ _ _ Hp Hr).
  - intros outcome fs1 Hr.
    exact (debug_code_returns os app fs _ _ _ Hp Hr).
Qed.

Lemma tempfile_left_in_place_witness :
  exists app',
    run_code (quiet_os (CompletedProcess 1 [] (u "NameError"))) (app_with []) no_files
    = PyOk (app', write_file no_files (u "/tmp/tmpk3x9a_.py") (join [nl] preamble)).
Proof.
  assert (Hp : parse_code (editor (app_with [])) = PyOk (join [nl] preamble))
    by (vm_compute; reflexivity).
  exact (proj1 (proj2 (proj2
           (tempfile_left_in_place
              (quiet_os (CompletedProcess 1 [] (u "NameError")))
              (app_with []) no_files (join [nl] preamble) Hp)))
           (CompletedProcess 1 [] (u "NameError")) _ eq_refl).
Defined.

(** C2 as the specification states it: after a run that times out, of the program
    translated from the empty source, by a child process that touches no
    file, the temporary file still exists. *)
Lemma tempfile_not_removed :
  ~ run_code_removes_tempfile (quiet_os (TimeoutExpired [] [])) (app_with []) no_files.
Proof.
  intros H.
  assert (Hp : parse_code (editor (app_with [])) = PyOk (join [nl] preamble))
    by (vm_compute; reflexivity).
  pose proof (run_code_returns (quiet_os (TimeoutExpired [] [])) (app_with [])
                no_files _ _ _ Hp eq_refl) as Hrun.
  specialize (H _ _ Hrun). vm_compute in H. discriminate H.
Qed.

(** C4.  When the timeout expires the console shows the fixed message of
    the handler and nothing else: the output captured before the expiry,
    which the exception carries, is dropped, and neither an exit code nor
    a flag is reported besides that message. *)
Theorem timeout_shows_fixed_message
        (os : OS) (app : App) (fs : filesystem) (py_code stdout stderr : str)
        (fs1 : filesystem) :
  parse_code (editor app) = PyOk py_code ->
  subprocess_run os (tempfile_name os fs) 10
    (write_file fs (tempfile_name os fs) py_code)
  = (TimeoutExpired stdout stderr, fs1) ->
  exists app',
    run_code os app fs = PyOk (app', fs1)
    /\ console app' = u "⏱️ Erreur : le script a pris trop de temps.".
Proof.
  intros Hp Hr. eexists. split.
  - exact (run_code_returns os app fs _ _ _ Hp Hr).
  - reflexivity.
Qed.

Lemma timeout_shows_fixed_message_witness :
  exists app',
    run_code (quiet_os (TimeoutExpired (u "tick") (u "warning"))) (app_with [])
      no_files
    = PyOk (app', write_file no_files (u "/tmp/tmpk3x9a_.py") (join [nl] preamble))
    /\ console app' = u "⏱️ Erreur : le script a pris trop de temps.".
Proof.
  assert (Hp : parse_code (editor (app_with [])) = PyOk (join [nl] preamble))
    by (vm_compute; reflexivity).
  exact (timeout_shows_fixed_message
           (quiet_os (TimeoutExpired (u "tick") (u "warning"))) (app_with [])
           no_files (join [nl] preamble) (u "tick") (u "warning") _ Hp eq_refl).
Defined.

(** C4 as the specification states it: a child process that had printed [tick]
    before the timeout expired leaves no [tick] on the console. *)
Lemma timeout_drops_partial_output :
  ~ timeout_keeps_output (quiet_os (TimeoutExpired (u "tick") [])) (app_with [])
      no_files.
Proof.
  intros H.
  assert (Hp : parse_code (editor (app_with [])) = PyOk (join [nl] preamble))
    by (vm_compute; reflexivity).
  pose proof (run_code_returns (quiet_os (TimeoutExpired (u "tick") []))
                (app_with []) no_files _ _ _ Hp eq_refl) as Hrun.
  destruct (H _ (u "tick") [] _ _ _ Hp eq_refl Hrun) as [H1 _].
  vm_compute in H1. discriminate H1.
Qed.

(** ** The list of recent files *)

Lemma str_eqb_eq (a b : str) : str_eqb a b = true <-> a = b.
Proof.
  split; [|intros ->; apply str_eqb_refl].
  revert b. induction a as [|x a IH]; intros [|y b]; simpl; try discriminate;
    [reflexivity|].
  intros H. apply andb_true_iff in H as [Hx Ha].
  apply N.eqb_eq in Hx. subst y. now rewrite (IH b Ha).
Qed.

Lemma contains_In (l : list str) (x : str) : contains l x = true <-> In x l.
Proof.
  unfold contains. rewrite existsb_exists. split.
  - intros (y & Hin & Heq). apply str_eqb_eq in Heq. now subst y.
  - intros Hin. exists x. split; [exact Hin|apply str_eqb_refl].
Qed.

Lemma list_remove_In (l : list str) (x : str) :
  In x l ->
  exists l1 l2,
    l = l1 ++ x :: l2 /\ ~ In x l1 /\ list_remove l x = PyOk (l1 ++ l2).
Proof.
  induction l as [|y r IH]; [intros []|]. intros Hin. simpl.
  destruct (str_eqb y x) eqn:E.
  - apply str_eqb_eq in E. subst y. exists [], r. simpl. auto.
  - assert (Hne : y <> x) by (intros ->; now rewrite str_eqb_refl in E).
    destruct Hin as [Hin|Hin]; [contradiction|].
    destruct (IH Hin) as (l1 & l2 & -> & Hn & ->).
    exists (y :: l1), l2. simpl. repeat split.
    intros [H|H]; [contradiction|exact (Hn H)].
Qed.

(** The list after the call: the path in front of the other entries, cut
    to [max_recent_files]. *)
Lemma add_recent_file_shape (l : list str) (p : str) :
  exists l0,
    add_recent_file l p = PyOk (firstn max_recent_files (p :: l0))
    /\ ((~ In p l /\ l0 = l)
        \/ (exists l1 l2, l = l1 ++ p :: l2 /\ ~ In p l1 /\ l0 = l1 ++ l2)).
Proof.
  assert (cut : forall l0,
             (if max_recent_files <? length (p :: l0)
              then PyOk (slice_to (p :: l0) (Z.of_nat max_recent_files))
              else PyOk (p :: l0))
             = PyOk (firstn max_recent_files (p :: l0))).
  { intros l0. destruct (max_recent_files <? length (p :: l0)) eqn:E.
    - now rewrite slice_to_firstn.
    - apply Nat.ltb_ge in E. now rewrite firstn_all2. }
  unfold add_recent_file. destruct (contains l p) eqn:E.
  - apply contains_In in E. destruct (list_remove_In l p E) as (l1 & l2 & Hl & Hn & Hr).
    exists (l1 ++ l2). rewrite Hr. unfold bind. cbv zeta. rewrite cut.
    split; [reflexivity|]. right. now exists l1, l2.
  - exists l. unfold bind. cbv zeta. rewrite cut. split; [reflexivity|].
    left. split; [|reflexivity].
    intros Hin. apply contains_In in Hin. congruence.
Qed.

Lemma NoDup_firstn {A} (n : nat) (l : list A) : NoDup l -> NoDup (firstn n l).
Proof.
  revert n. induction l as [|x l IH]; intros [|n] H; simpl; try constructor.
  - inversion H as [|? ? Hx Hl]; subst. intros Hin. apply Hx.
    rewrite <- (firstn_skipn n l). apply in_or_app. now left.
  - inversion H; subst. now apply IH.
Qed.

(** X1.  [add_recent_file] never raises: [remove] is only called on a
    path the list holds.  After the call the path is the first entry and
    the list has at most five entries. *)
Theorem add_recent_file_puts_path_first (recent_files : list str) (path : str) :
  exists after,
    add_recent_file recent_files path = PyOk after
    /\ hd_error after = Some path
    /\ length after <= 5.
Proof.
  destruct (add_recent_file_shape recent_files path) as (l0 & H & _).
  eexists. split; [exact H|]. split; [reflexivity|].
  apply firstn_le_length.
Qed.

(** X2.  A list without a repeated entry stays without one. *)
Theorem add_recent_file_keeps_entries_distinct
        (recent_files after : list str) (path : str) :
  NoDup recent_files ->
  add_recent_file recent_files path = PyOk after ->
  NoDup after.
Proof.
  intros Hnd H.
  destruct (add_recent_file_shape recent_files path) as (l0 & H' & Hs).
  assert (after = firstn max_recent_files (path :: l0)) as -> by congruence.
  apply NoDup_firstn.
  destruct Hs as [[Hn ->]|(l1 & l2 & -> & Hn & ->)].
  - now constructor.
  - apply NoDup_remove in Hnd as [Hnd Hp]. now constructor.
Qed.

Lemma add_recent_file_keeps_entries_distinct_witness :
  NoDup [u "c.edu"; u "a.edu"; u "b.edu"].
Proof.
  apply (add_recent_file_keeps_entries_distinct
           [u "a.edu"; u "b.edu"; u "c.edu"] _ (u "c.edu")).
  - repeat constructor; simpl; intros H;
      repeat (destruct H as [H|H]; [discriminate H|]); exact H.
  - vm_compute; reflexivity.
Defined.

(** X3.  Adding the path that was added last changes nothing. *)
Theorem add_recent_file_idempotent (recent_files after : list str) (path : str) :
  add_recent_file recent_files path = PyOk after ->
  add_recent_file after path = PyOk after.
Proof.
  intros H.
  destruct (add_recent_file_shape recent_files path) as (l0 & H' & _).
  assert (after = firstn max_recent_files (path :: l0)) as -> by congruence.
  change (firstn max_recent_files (path :: l0)) with (path :: firstn 4 l0).
  unfold add_recent_file.
  assert (E : contains (path :: firstn 4 l0) path = true)
    by (apply contains_In; now left).
  rewrite E. cbn [list_remove]. rewrite str_eqb_refl. unfold bind. cbv zeta.
  assert (L : length (path :: firstn 4 l0) <= 5)
    by (cbn [length]; pose proof (firstn_le_length 4 l0); lia).
  apply Nat.ltb_ge in L. unfold max_recent_files. now rewrite L.
Qed.

Lemma add_recent_file_idempotent_witness :
  add_recent_file [u "b.edu"; u "a.edu"] (u "b.edu")
  = PyOk [u "b.edu"; u "a.edu"].
Proof.
  apply (add_recent_file_idempotent [u "a.edu"] _ (u "b.edu")).
  vm_compute; reflexivity.
Defined.

(** X4.  A path the list does not hold is put in front of the list as it
    is while the list has fewer than five entries; when it has five, the
    last entry is dropped to make room. *)
Theorem add_recent_file_evicts_the_oldest (recent_files : list str) (path : str) :
  ~ In path recent_files ->
  (length recent_files < 5 ->
   add_recent_file recent_files path = PyOk (path :: recent_files))
  /\ (length recent_files = 5 ->
      add_recent_file recent_files path = PyOk (path :: removelast recent_files)).
Proof.
  intros Hn.
  destruct (add_recent_file_shape recent_files path) as (l0 & H & Hs).
  assert (l0 = recent_files) as ->.
  { destruct Hs as [[_ ->]|(l1 & l2 & -> & _ & _)]; [reflexivity|].
    exfalso. apply Hn, in_or_app. right. now left. }
  rewrite H. change (firstn max_recent_files (path :: recent_files))
    with (path :: firstn 4 recent_files).
  split; intros L.
  - now rewrite firstn_all2 by lia.
  - rewrite removelast_firstn_len, L. reflexivity.
Qed.

Lemma add_recent_file_evicts_the_oldest_witness :
  add_recent_file [u "5"; u "4"; u "3"; u "2"; u "1"] (u "6")
  = PyOk [u "6"; u "5"; u "4"; u "3"; u "2"].
Proof.
  refine (proj2 (add_recent_file_evicts_the_oldest
                   [u "5"; u "4"; u "3"; u "2"; u "1"] (u "6") _) eq_refl).
  simpl. intros H. repeat (destruct H as [H|H]; [discriminate H|]). exact H.
Defined.

(** X5.  Adding a path the list holds, when the list has at most five
    entries, only reorders it: no entry is lost and none is added. *)
Theorem add_recent_file_reorders_known_path (recent_files : list str) (path : str) :
  In path recent_files ->
  length recent_files <= 5 ->
  exists after,
    add_recent_file recent_files path = PyOk after
    /\ Permutation recent_files after.
Proof.
  intros Hin L.
  destruct (add_recent_file_shape recent_files path) as (l0 & H & Hs).
  destruct Hs as [[Hn _]|(l1 & l2 & -> & _ & ->)]; [contradiction|].
  rewrite H. rewrite length_app in L. simpl in L.
  rewrite firstn_all2 by (simpl; rewrite length_app; unfold max_recent_files; lia).
  eexists. split; [reflexivity|].
  apply Permutation_sym, Permutation_middle.
Qed.

Lemma add_recent_file_reorders_known_path_witness :
  exists after,
    add_recent_file [u "a.edu"; u "b.edu"; u "c.edu"] (u "c.edu") = PyOk after
    /\ Permutation [u "a.edu"; u "b.edu"; u "c.edu"] after.
Proof.
  apply add_recent_file_reorders_known_path.
  - simpl. right. right. left. reflexivity.
  - simpl. lia.
Defined.

(** X6.  The list is ordered from the most recent: after two different
    paths are added one after the other, the second is first and the
    first is second. *)
Theorem add_recent_file_most_recent_first
        (recent_files after1 after2 : list str) (a b : str) :
  a <> b ->
  add_recent_file recent_files a = PyOk after1 ->
  add_recent_file after1 b = PyOk after2 ->
  firstn 2 after2 = [b; a].
Proof.
  intros Hab H1 H2.
  destruct (add_recent_file_shape recent_files a) as (l0 & H1' & _).
  assert (after1 = firstn max_recent_files (a :: l0)) as -> by congruence.
  change (firstn max_recent_files (a :: l0)) with (a :: firstn 4 l0) in H2.
  destruct (add_recent_file_shape (a :: firstn 4 l0) b) as (l0' & H2' & Hs).
  assert (after2 = firstn max_recent_files (b :: l0')) as -> by congruence.
  destruct Hs as [[_ ->]|(l1 & l2 & Hl & Hn & ->)]; [reflexivity|].
  destruct l1 as [|x l1].
  - simpl in Hl. injection Hl as Hl _. contradiction.
  - simpl in Hl. injection Hl as <- _. reflexivity.
Qed.

Lemma add_recent_file_most_recent_first_witness :
  firstn 2 [u "b.edu"; u "a.edu"; u "c.edu"] = [u "b.edu"; u "a.edu"].
Proof.
  apply (add_recent_file_most_recent_first
           [u "b.edu"; u "c.edu"] [u "a.edu"; u "b.edu"; u "c.edu"] _
           (u "a.edu") (u "b.edu")).
  - discriminate.
  - vm_compute; reflexivity.
  - vm_compute; reflexivity.
Defined.

(** ** What one line can produce *)

Lemma unpack2_raises_value_error {A} (l : list A) (e : exn) :
  unpack2 l = PyRaise e -> e = ValueError.
Proof.
  destruct l as [|a [|b [|c l]]]; simpl; intros H; try discriminate;
    now injection H as <-.
Qed.

(** The first test of what is left of the chain. *)
Ltac chain_case :=
  lazymatch goal with
  | |- statement_shape _ ?s (if startswith ?s ?k then _ else _) =>
    let E := fresh "E" in destruct (startswith s k) eqn:E
  end.

(** The calls that may raise, inside a branch of the chain. *)
Ltac shape_split :=
  repeat
    match goal with
    | |- statement_shape _ _ (bind (getitem ?l ?i) _) =>
      let G := fresh "G" in
      destruct (getitem l i) eqn:G; cbn [bind];
      [ | apply getitem_raises_index_error in G; subst ]
    | |- statement_shape _ _ (bind (unpack2 ?l) _) =>
      let G := fresh "G" in
      destruct (unpack2 l) as [[? ?]|?] eqn:G; cbn [bind];
      [ | apply unpack2_raises_value_error in G; subst ]
    | |- statement_shape _ _ (if ?b then _ else _) =>
      destruct b eqn:?
    end.

Ltac known_tests :=
  repeat match goal with
         | E : startswith _ _ = _ |- _ => rewrite E; clear E
         end;
  reflexivity.

Ltac shape_leaf :=
  unfold statement_shape;
  first
    [ left; eexists; reflexivity
    | right; left; split; [reflexivity | assumption]
    | right; right; left; split; [reflexivity | assumption]
    | right; right; right; left; split;
      [reflexivity | unfold index_rules; cbn [existsb]; known_tests]
    | right; right; right; right; split;
      [reflexivity | unfold unpack_rules; cbn [existsb]; known_tests] ].

Lemma parse_statement_shape (indent s : str) :
  statement_shape indent s (parse_statement indent s).
Proof.
  unfold parse_statement, parse_repeter.
  repeat (chain_case; [shape_split; shape_leaf | ]).
  shape_leaf.
Qed.

(** X7.  A line that is translated gives one generated line that begins
    with the four spaces per level of the source line, or the three lines
    of the program-entry rule (the first of them empty), or no line at
    all, which only the counted-repeat rule does: never two lines, never
    more than three, and never a line indented less than its source. *)
Theorem parse_line_output_shape (line : str) (out : list str) :
  parse_line line = PyOk out ->
  let indent := str_mul (u "    ") (indent_level line) in
  (exists text, out = [indent ++ text])
  \/ (out = [ []; indent ++ u "if __name__ == '__main__':";
              indent ++ u "    main()" ]
      /\ startswith (strip line) (u "quand_drapeau_clique") = true)
  \/ (out = [] /\ startswith (strip line) (u "répéter") = true).
Proof.
  intros H indent. unfold parse_line in H. cbv zeta in H.
  pose proof (parse_statement_shape indent (strip line)) as S.
  fold indent in H. rewrite H in S.
  destruct S as [(text & S)|[(S & E)|[(S & E)|[(S & _)|(S & _)]]]];
    try discriminate S.
  - left. exists text. congruence.
  - right. left. split; [congruence|exact E].
  - right. right. split; [congruence|exact E].
Qed.

Lemma parse_line_output_shape_witness :
  (exists text, [u "    score = 0"] = [str_mul (u "    ") 1 ++ text])
  \/ ([u "    score = 0"]
      = [ []; str_mul (u "    ") 1 ++ u "if __name__ == '__main__':";
          str_mul (u "    ") 1 ++ u "    main()" ]
      /\ startswith (strip (u "    variable score = 0")) (u "quand_drapeau_clique") = true)
  \/ ([u "    score = 0"] = []
      /\ startswith (strip (u "    variable score = 0")) (u "répéter") = true).
Proof.
  apply (parse_line_output_shape (u "    variable score = 0") [u "    score = 0"]).
  vm_compute; reflexivity.
Defined.

(** X8.  A line makes the translation raise only when its content starts
    with the prefix of a rule that indexes tokens ([répéter], [changer],
    [incrémenter], [mettre]), and the exception is then [IndexError], or
    of a rule that unpacks a split ([ajouter], [enlever], [aller_a(],
    [pour chaque]), and it is then [ValueError].  Every other line is
    translated. *)
Theorem parse_line_raises_only_in_eight_rules (line : str) (e : exn) :
  parse_line line = PyRaise e ->
  (e = IndexError /\ existsb (startswith (strip line)) index_rules = true)
  \/ (e = ValueError /\ existsb (startswith (strip line)) unpack_rules = true).
Proof.
  intros H. unfold parse_line in H. cbv zeta in H.
  pose proof (parse_statement_shape
                (str_mul (u "    ") (indent_level line)) (strip line)) as S.
  rewrite H in S.
  destruct S as [(text & S)|[(S & _)|[(S & _)|[(S & E)|(S & E)]]]];
    try discriminate S.
  - left. split; [congruence|exact E].
  - right. split; [congruence|exact E].
Qed.

Lemma parse_line_raises_only_in_eight_rules_witness :
  (ValueError = IndexError
   /\ existsb (startswith (strip (u "aller_a(100)"))) index_rules = true)
  \/ (ValueError = ValueError
      /\ existsb (startswith (strip (u "aller_a(100)"))) unpack_rules = true).
Proof.
  apply (parse_line_raises_only_in_eight_rules (u "aller_a(100)") ValueError).
  vm_compute; reflexivity.
Defined.

Lemma may_raise_false (s : str) :
  may_raise s = false ->
  existsb (startswith s) index_rules = false
  /\ existsb (startswith s) unpack_rules = false.
Proof.
  unfold may_raise. rewrite existsb_app. apply orb_false_iff.
Qed.

Lemma parse_line_total (line : str) :
  may_raise (strip line) = false -> exists out, parse_line line = PyOk out.
Proof.
  intros H. apply may_raise_false in H as [H1 H2].
  destruct (parse_line line) as [out|e] eqn:E; [now exists out|].
  destruct (parse_line_raises_only_in_eight_rules line e E) as [[_ X]|[_ X]];
    congruence.
Qed.

Lemma parse_lines_concat (lines : list str) (outs : list (list str)) (acc : list str) :
  Forall2 (fun l o => parse_line l = PyOk o) lines outs ->
  parse_lines lines acc = PyOk (acc ++ concat outs).
Proof.
  intros H. revert acc. induction H as [|l o lines outs Hl _ IH]; intros acc.
  - simpl. now rewrite app_nil_r.
  - simpl. rewrite Hl. unfold bind. rewrite IH, <- app_assoc. reflexivity.
Qed.

(** X9.  A source none of whose lines starts, once stripped, with one of
    the eight prefixes of X8 is always translated, and the translation is
    done line by line: the program is the preamble followed by what each
    line gives, in the order of the lines. *)
Theorem parse_code_total_without_risky_rules (code : str) :
  Forall (fun line => may_raise (strip line) = false) (splitlines code) ->
  exists outs,
    Forall2 (fun line out => parse_line line = PyOk out) (splitlines code) outs
    /\ parse_code code = PyOk (join [nl] (preamble ++ concat outs)).
Proof.
  intros H.
  assert (X : exists outs,
             Forall2 (fun line out => parse_line line = PyOk out)
                     (splitlines code) outs).
  { induction H as [|l lines Hl _ IH]; [now exists []|].
    destruct IH as [outs IH]. destruct (parse_line_total l Hl) as [o Ho].
    exists (o :: outs). now constructor. }
  destruct X as [outs X]. exists outs. split; [exact X|].
  unfold parse_code. rewrite (parse_lines_concat _ outs preamble X).
  reflexivity.
Qed.

Lemma parse_code_total_without_risky_rules_witness :
  exists outs,
    Forall2 (fun line out => parse_line line = PyOk out)
            (splitlines (u "si x > 0:" ++ [nl] ++ u "    dire(x)")) outs
    /\ parse_code (u "si x > 0:" ++ [nl] ++ u "    dire(x)")
       = PyOk (join [nl] (preamble ++ concat outs)).
Proof.
  apply parse_code_total_without_risky_rules.
  assert (E : splitlines (u "si x > 0:" ++ [nl] ++ u "    dire(x)")
              = [u "si x > 0:"; u "    dire(x)"]) by (vm_compute; reflexivity).
  rewrite E. constructor; [vm_compute; reflexivity|].
  constructor; [vm_compute; reflexivity|]. constructor.
Defined.

(** ** Blank lines *)

Lemma lstrip_blank (line : str) :
  forallb isspace line = true -> lstrip line = [].
Proof.
  induction line as [|c r IH]; [reflexivity|]. simpl.
  intros H. apply andb_true_iff in H as [Hc Hr]. rewrite Hc. exact (IH Hr).
Qed.

(** X10.  A line made of whitespace only, the empty line among them, is
    never dropped and never raises: it gives one line made of four spaces
    for every four characters of the line. *)
Theorem blank_line_is_kept (line : str) :
  forallb isspace line = true ->
  parse_line line = PyOk [str_mul (u "    ") (length line / 4)].
Proof.
  intros H. unfold parse_line. cbv zeta. unfold indent_level.
  assert (S : strip line = []) by (unfold strip; now rewrite lstrip_blank).
  rewrite S. rewrite statement_fallback by reflexivity.
  now rewrite app_nil_r, Nat.sub_0_r.
Qed.

Lemma blank_line_is_kept_witness :
  parse_line [] = PyOk [[]]
  /\ parse_line [9; 32; 32; 32; 32; 32]%N = PyOk [u "    "].
Proof.
  split.
  - exact (blank_line_is_kept [] eq_refl).
  - exact (blank_line_is_kept [9; 32; 32; 32; 32; 32]%N eq_refl).
Defined.

(** ** The headers of conditionals and loops *)

Lemma slice_from_app {A} (a b : list A) :
  slice_from (a ++ b) (Z.of_nat (length a)) = b.
Proof.
  unfold slice_from, clip.
  destruct (Z.of_nat (length a) <? 0)%Z eqn:E; [apply Z.ltb_lt in E; lia|].
  rewrite Nat2Z.id, length_app, Nat.min_l by lia. clear E.
  induction a as [|x a IH]; [reflexivity|exact IH].
Qed.

Lemma mem_char_colon (c : char) : mem_char c (u ":") = (c =? 58)%N.
Proof.
  unfold mem_char. change (u ":") with [58%N]. cbn [existsb].
  apply orb_false_r.
Qed.

Lemma rstrip_colon_app (w : str) :
  w <> [] -> (last w 0 =? 58)%N = false ->
  rstrip_chars (u ":") (w ++ u ":") = w.
Proof.
  induction w as [|x w IH]; [contradiction|]. intros _ Hl.
  change ((x :: w) ++ u ":") with (x :: (w ++ u ":")).
  cbn [rstrip_chars]. destruct w as [|y w].
  - simpl in Hl. change (rstrip_chars (u ":") ([] ++ u ":")) with (@nil char).
    now rewrite mem_char_colon, Hl.
  - rewrite IH by (discriminate || exact Hl). reflexivity.
Qed.

Lemma strip_colon_header (cond : str) :
  colon_free_ends cond = true -> strip_chars (cond ++ u ":") (u ":") = cond.
Proof.
  destruct cond as [|c r]; [reflexivity|]. intros H.
  apply andb_true_iff in H as [Hc Hl]. apply negb_true_iff in Hc, Hl.
  unfold strip_chars. change ((c :: r) ++ u ":") with (c :: (r ++ u ":")).
  cbn [lstrip_chars]. rewrite mem_char_colon, Hc.
  change (c :: r ++ u ":") with ((c :: r) ++ u ":").
  apply rstrip_colon_app; [discriminate|exact Hl].
Qed.

(** Every content that starts with [si] is taken by the conditional rule. *)
Lemma statement_si (indent s : str) :
  startswith s (u "si") = true ->
  parse_statement indent s =
  PyOk [indent ++ u "if " ++ strip_chars (slice_from s 3) (u ":") ++ u ":"].
Proof.
  intros H. unfold parse_statement. do 3 skip_rule H. rewrite H. reflexivity.
Qed.

Lemma statement_tant_que (indent s : str) :
  startswith s (u "tant que") = true ->
  parse_statement indent s =
  PyOk [indent ++ u "while " ++ strip_chars (slice_from s 9) (u ":") ++ u ":"].
Proof.
  intros H. unfold parse_statement. do 11 skip_rule H. rewrite H. reflexivity.
Qed.

(** X11.  On a line without whitespace at its end, a conditional header
    [si COND:] whose condition neither begins nor ends with a colon is
    translated into [if COND:] behind four spaces per level, the level
    being the number of whitespace characters the line begins with
    divided by 4: the condition is passed as it is and the colon of the
    header is put back once. *)
Theorem si_header_translated (line cond : str) :
  rstrip line = line ->
  strip line = u "si " ++ cond ++ u ":" ->
  colon_free_ends cond = true ->
  parse_line line
  = PyOk [str_mul (u "    ") (spec_indent_level line) ++ u "if " ++ cond ++ u ":"].
Proof.
  intros Hr Hs Hc. unfold parse_line. cbv zeta.
  rewrite (indent_level_is_leading line Hr), Hs.
  rewrite statement_si
    by (apply (startswith_trans _ (u "si ")); [apply startswith_app|reflexivity]).
  change 3%Z with (Z.of_nat (length (u "si "))).
  now rewrite slice_from_app, (strip_colon_header cond Hc).
Qed.

Lemma si_header_translated_witness :
  parse_line (u "     si notes[1:] == fin:")
  = PyOk [u "    if notes[1:] == fin:"].
Proof.
  refine (eq_trans (si_header_translated (u "     si notes[1:] == fin:")
                      (u "notes[1:] == fin") _ _ _) _);
    vm_compute; reflexivity.
Defined.

(** X12.  On a line without whitespace at its end, a loop header
    [tant que COND:] whose condition neither begins nor ends with a colon
    is translated into [while COND:] behind four spaces per level, the
    level being the number of whitespace characters the line begins with
    divided by 4. *)
Theorem tant_que_header_translated (line cond : str) :
  rstrip line = line ->
  strip line = u "tant que " ++ cond ++ u ":" ->
  colon_free_ends cond = true ->
  parse_line line
  = PyOk [str_mul (u "    ") (spec_indent_level line) ++ u "while " ++ cond ++ u ":"].
Proof.
  intros Hr Hs Hc. unfold parse_line. cbv zeta.
  rewrite (indent_level_is_leading line Hr), Hs.
  rewrite statement_tant_que
    by (apply (startswith_trans _ (u "tant que "));
        [apply startswith_app|reflexivity]).
  change 9%Z with (Z.of_nat (length (u "tant que "))).
  now rewrite slice_from_app, (strip_colon_header cond Hc).
Qed.

Lemma tant_que_header_translated_witness :
  parse_line (u "        tant que x < 10:") = PyOk [u "        while x < 10:"].
Proof.
  refine (eq_trans (tant_que_header_translated (u "        tant que x < 10:")
                      (u "x < 10") _ _ _) _);
    vm_compute; reflexivity.
Defined.

(** ** Statements made of tokens *)

Lemma split_ws_from_word (w cur rest : str) :
  forallb (fun c => negb (isspace c)) w = true ->
  split_ws_from cur (w ++ rest) = split_ws_from (cur ++ w) rest.
Proof.
  revert cur. induction w as [|c w IH]; intros cur H.
  - now rewrite app_nil_r.
  - cbn [forallb] in H. apply andb_true_iff in H as [Hc Hw].
    apply negb_true_iff in Hc.
    change ((c :: w) ++ rest) with (c :: (w ++ rest)).
    cbn [split_ws_from]. rewrite Hc, (IH _ Hw), <- app_assoc. reflexivity.
Qed.

Lemma is_word_spec (w : str) :
  is_word w = true ->
  w <> [] /\ forallb (fun c => negb (isspace c)) w = true.
Proof.
  destruct w as [|c w]; [discriminate|]. intros H. split; [discriminate|exact H].
Qed.

(** Tokens joined by single spaces are split back into the tokens. *)
Lemma split_ws_join (ws : list str) :
  Forall (fun w => is_word w = true) ws ->
  split_ws (join (u " ") ws) = ws.
Proof.
  unfold split_ws. induction 1 as [|w ws Hw _ IH]; [reflexivity|].
  apply is_word_spec in Hw as [Hne Hw].
  destruct ws as [|w2 ws].
  - cbn [join]. rewrite <- (app_nil_r w), (split_ws_from_word w [] [] Hw).
    cbn [app split_ws_from]. rewrite app_nil_r. now destruct w.
  - change (join (u " ") (w :: w2 :: ws))
      with (w ++ 32%N :: join (u " ") (w2 :: ws)).
    rewrite (split_ws_from_word w [] _ Hw). cbn [app split_ws_from].
    change (isspace 32%N) with true. cbv iota. rewrite IH.
    now destruct w.
Qed.

(** X13.  On a line without whitespace at its end, a mutate-by statement
    [changer NAME W N] and a set-to statement [mettre NAME W N], made of
    four tokens separated by single spaces, are translated into
    [NAME += N] and [NAME = N] behind four spaces per level, the level
    being the number of whitespace characters the line begins with
    divided by 4, whatever the third token [W] is: the rules never look
    at it. *)
Theorem mutate_and_set_ignore_third_token (line name w n : str) :
  rstrip line = line ->
  is_word name = true -> is_word w = true -> is_word n = true ->
  let indent := str_mul (u "    ") (spec_indent_level line) in
  (strip line = join (u " ") [u "changer"; name; w; n] ->
   parse_line line = PyOk [indent ++ name ++ u " += " ++ n])
  /\ (strip line = join (u " ") [u "mettre"; name; w; n] ->
      parse_line line = PyOk [indent ++ name ++ u " = " ++ n]).
Proof.
  intros Hr Hname Hw Hn indent. subst indent.
  assert (T : forall k, is_word k = true ->
                        split_ws (join (u " ") [k; name; w; n]) = [k; name; w; n])
    by (intros k Hk; apply split_ws_join; repeat constructor; assumption).
  split; intros Hs; unfold parse_line; cbv zeta;
    rewrite (indent_level_is_leading line Hr), Hs.
  - rewrite statement_changer by apply startswith_app.
    rewrite (T (u "changer") eq_refl).
    exact (two_tokens_found [u "changer"; name; w; n]
             (fun var val => PyOk [_ ++ var ++ _ ++ val]) name n eq_refl eq_refl).
  - rewrite statement_mettre by apply startswith_app.
    rewrite (T (u "mettre") eq_refl).
    exact (two_tokens_found [u "mettre"; name; w; n]
             (fun var val => PyOk [_ ++ var ++ _ ++ val]) name n eq_refl eq_refl).
Qed.

Lemma mutate_and_set_ignore_third_token_witness :
  parse_line (u "    changer score par 2") = PyOk [u "    score += 2"]
  /\ parse_line (u "mettre score à 10") = PyOk [u "score = 10"].
Proof.
  split.
  - refine (eq_trans
              (proj1 (mutate_and_set_ignore_third_token
                        (u "    changer score par 2") (u "score") (u "par")
                        (u "2") _ eq_refl eq_refl eq_refl) _) _);
      vm_compute; reflexivity.
  - refine (eq_trans
              (proj2 (mutate_and_set_ignore_third_token
                        (u "mettre score à 10") (u "score") (u "à")
                        (u "10") _ eq_refl eq_refl eq_refl) _) _);
      vm_compute; reflexivity.
Defined.

(** ** The counted repeat *)

Lemma isspace_cases (c : char) :
  isspace c = true ->
  In c [9; 10; 11; 12; 13; 28; 29; 30; 31; 32; 133; 160; 5760; 8192; 8193;
        8194; 8195; 8196; 8197; 8198; 8199; 8200; 8201; 8202; 8232; 8233;
        8239; 8287; 12288]%N.
Proof.
  unfold isspace. cbn [in_ranges].
  rewrite !orb_true_iff, !andb_true_iff, !N.leb_le. cbn [In]. lia.
Qed.

Lemma digit_is_not_space (c : char) :
  isdigit_char c = true -> isspace c = false.
Proof.
  intros H. destruct (isspace c) eqn:E; [|reflexivity].
  apply isspace_cases in E. cbn [In] in E.
  repeat (destruct E as [<-|E]; [vm_compute in H; discriminate H|]).
  destruct E.
Qed.

Lemma isdigit_is_word (n : str) : isdigit n = true -> is_word n = true.
Proof.
  destruct n as [|c n]; [discriminate|]. unfold isdigit, is_word.
  generalize (c :: n). intros l H.
  induction l as [|x l IH]; [reflexivity|]. cbn [forallb] in *.
  apply andb_true_iff in H as [Hx Hl].
  now rewrite (digit_is_not_space x Hx), (IH Hl).
Qed.

Lemma isdigit_is_not_pour (n : str) :
  isdigit n = true -> str_eqb (u "pour") n = false.
Proof.
  destruct n as [|c n]; [discriminate|]. intros H.
  change (u "pour") with [112; 111; 117; 114]%N. cbn [str_eqb].
  destruct (112 =? c)%N eqn:E; [|reflexivity].
  apply N.eqb_eq in E. subst c. vm_compute in H. discriminate H.
Qed.

(** X14.  On a line without whitespace at its end, the counted repeat
    [répéter N fois:], where [N] is made of digits, is translated into
    [for _ in range(N):] behind four spaces per level, the level being
    the number of whitespace characters the line begins with divided
    by 4. *)
Theorem counted_repeat_translated (line n : str) :
  rstrip line = line ->
  strip line = join (u " ") [u "répéter"; n; u "fois:"] ->
  isdigit n = true ->
  parse_line line
  = PyOk [str_mul (u "    ") (spec_indent_level line)
            ++ u "for _ in range(" ++ n ++ u "):"].
Proof.
  intros Hr Hs Hd. unfold parse_line. cbv zeta.
  rewrite (indent_level_is_leading line Hr), Hs.
  rewrite statement_repeter by apply startswith_app.
  unfold parse_repeter. cbv zeta.
  rewrite split_ws_join
    by (repeat constructor; [apply isdigit_is_word, Hd]).
  unfold contains. cbn [existsb].
  rewrite (isdigit_is_not_pour n Hd).
  change (str_eqb (u "pour") (u "répéter")) with false.
  change (str_eqb (u "pour") (u "fois:")) with false.
  cbn [orb].
  pose proof (getitem_nth [u "répéter"; n; u "fois:"] 1 n eq_refl) as G.
  change (Z.of_nat 1) with 1%Z in G. rewrite G. cbn [bind]. now rewrite Hd.
Qed.

Lemma counted_repeat_translated_witness :
  parse_line (u "    répéter 12 fois:") = PyOk [u "    for _ in range(12):"].
Proof.
  refine (eq_trans (counted_repeat_translated (u "    répéter 12 fois:")
                      (u "12") _ _ _) _);
    vm_compute; reflexivity.
Defined.

(** ** Exceptions of the translator in the harness *)


(** ** A line feed at the end of the source *)

Lemma splitlines_from_final_newline (s cur : str) (after_cr : bool) :
  s <> [] -> is_linebreak (last s 0%N) = false ->
  splitlines_from after_cr cur (s ++ [nl]) = splitlines_from after_cr cur s.
Proof.
  revert cur after_cr. induction s as [|c s IH]; intros cur after_cr Hne Hl;
    [contradiction|].
  destruct s as [|d s].
  - cbn [last] in Hl. cbn [app splitlines_from].
    assert (Hc : (c =? 10)%N = false).
    { destruct (c =? 10)%N eqn:E; [|reflexivity].
      apply N.eqb_eq in E. subst c. discriminate Hl. }
    rewrite Hc, andb_false_r, Hl.
    change (is_linebreak nl) with true. cbv iota.
    change (andb false (nl =? 10)%N) with false. cbv iota.
    now destruct (cur ++ [c]) eqn:E; [destruct cur; discriminate E|].
  - change ((c :: d :: s) ++ [nl]) with (c :: ((d :: s) ++ [nl])).
    cbn [splitlines_from].
    assert (IH' : forall cur b,
               splitlines_from b cur ((d :: s) ++ [nl])
               = splitlines_from b cur (d :: s))
      by (intros; apply IH; [discriminate|exact Hl]).
    now rewrite !IH'.
Qed.

(** X15.  A line feed added after a source that does not end with a line
    boundary changes nothing: the translation is the same, so the line
    feed [insert_command] puts after a command gives no line of its
    own. *)
Theorem final_newline_is_ignored (code : str) :
  code <> [] ->
  is_linebreak (last code 0%N) = false ->
  parse_code (code ++ [nl]) = parse_code code.
Proof.
  intros Hne Hl. unfold parse_code, splitlines.
  now rewrite splitlines_from_final_newline.
Qed.

Lemma final_newline_is_ignored_witness :
  parse_code (inserted_text (u "variable score = 0"))
  = parse_code (u "variable score = 0").
Proof.
  apply final_newline_is_ignored; [discriminate|reflexivity].
Defined.

(** ** The commands of the sidebar *)

(** X16.  Of the fifty commands the sidebar inserts, each taken as the
    whole source the way [insert_command] inserts it, all are translated
    into a program except the two that start with [changer_couleur(] or
    [changer_volume(]: these two, and only these, make the translation
    raise [IndexError]. *)
Theorem sidebar_commands_translated_but_two (command : str) :
  In command sidebar_commands ->
  match parse_code (inserted_text command) with
  | PyOk _ =>
    startswith command (u "changer_couleur(") = false
    /\ startswith command (u "changer_volume(") = false
  | PyRaise e =>
    e = IndexError
    /\ (startswith command (u "changer_couleur(") = true
        \/ startswith command (u "changer_volume(") = true)
  end.
Proof.
  pose (check := fun command =>
          match parse_code (inserted_text command) with
          | PyOk _ =>
            negb (startswith command (u "changer_couleur("))
            && negb (startswith command (u "changer_volume("))
          | PyRaise IndexError =>
            startswith command (u "changer_couleur(")
            || startswith command (u "changer_volume(")
          | PyRaise ValueError => false
          end).
  assert (All : forallb check sidebar_commands = true)
    by (vm_compute; reflexivity).
  intros Hin. pose proof (proj1 (forallb_forall check sidebar_commands) All
                                command Hin) as C.
  unfold check in C. clear check All.
  destruct (parse_code (inserted_text command)) as [py|[|]].
  - apply andb_true_iff in C as [C1 C2].
    now apply negb_true_iff in C1, C2.
  - split; [reflexivity|]. now apply orb_true_iff in C.
  - discriminate C.
Qed.

Lemma sidebar_commands_translated_but_two_witness :
  match parse_code (inserted_text (u "changer_volume(50)")) with
  | PyOk _ =>
    startswith (u "changer_volume(50)") (u "changer_couleur(") = false
    /\ startswith (u "changer_volume(50)") (u "changer_volume(") = false
  | PyRaise e =>
    e = IndexError
    /\ (startswith (u "changer_volume(50)") (u "changer_couleur(") = true
        \/ startswith (u "changer_volume(50)") (u "changer_volume(") = true)
  end.
Proof.
  apply sidebar_commands_translated_but_two.
  vm_compute. do 40 right. left. reflexivity.
Defined.

(** ** The rules that replace or remove their keyword *)

Lemma replace_from_skip (old new a rest : str) :
  replace_from old new (length a) (a ++ rest) = replace_from old new 0 rest.
Proof. induction a as [|c a IH]; [reflexivity|exact IH]. Qed.

Lemma replace_from_absent (old new s : str) :
  has_infix old s = false -> replace_from old new 0 s = s.
Proof.
  induction s as [|c r IH]; intros H; [reflexivity|].
  apply has_infix_false in H as [H1 H2].
  change (replace_from old new 0 (c :: r))
    with (if startswith (c :: r) old
          then new ++ replace_from old new (length old - 1) r
          else c :: replace_from old new 0 r).
  now rewrite H1, (IH H2).
Qed.

(** The keyword at the start of a string that holds it nowhere else. *)
Lemma replace_leading_keyword (k : char) (old' new rest : str) :
  has_infix (k :: old') rest = false ->
  replace ((k :: old') ++ rest) (k :: old') new = new ++ rest.
Proof.
  intros H. unfold replace.
  change ((k :: old') ++ rest) with (k :: (old' ++ rest)).
  change (replace_from (k :: old') new 0 (k :: old' ++ rest))
    with (if startswith ((k :: old') ++ rest) (k :: old')
          then new ++ replace_from (k :: old') new (length (k :: old') - 1)
                                   (old' ++ rest)
          else k :: replace_from (k :: old') new 0 (old' ++ rest)).
  rewrite startswith_app.
  replace (length (k :: old') - 1) with (length old') by (simpl; lia).
  now rewrite replace_from_skip, replace_from_absent.
Qed.

Lemma has_infix_after (old rest : str) (c : char) :
  startswith (c :: rest) old = false ->
  has_infix old rest = false ->
  has_infix old (c :: rest) = false.
Proof.
  intros H1 H2. change (has_infix old (c :: rest))
    with (startswith (c :: rest) old || has_infix old rest).
  now rewrite H1, H2.
Qed.

Lemma strip_after_space (rest : str) :
  strip rest = rest -> strip (32%N :: rest) = rest.
Proof. intros H. unfold strip. cbn [lstrip]. exact H. Qed.

Lemma statement_variable (indent s : str) :
  startswith s (u "variable") = true ->
  parse_statement indent s = PyOk [indent ++ strip (replace s (u "variable") [])].
Proof.
  intros H. unfold parse_statement. do 7 skip_rule H. rewrite H. reflexivity.
Qed.

Lemma statement_liste (indent s : str) :
  startswith s (u "liste") = true ->
  parse_statement indent s = PyOk [indent ++ strip (replace s (u "liste") [])].
Proof.
  intros H. unfold parse_statement. do 14 skip_rule H. rewrite H. reflexivity.
Qed.

Lemma statement_fonction (indent s : str) :
  startswith s (u "fonction") = true ->
  parse_statement indent s
  = PyOk [indent ++ u "def " ++ strip (replace s (u "fonction") [])].
Proof.
  intros H. unfold parse_statement. do 15 skip_rule H. rewrite H. reflexivity.
Qed.

Lemma statement_retourner (indent s : str) :
  startswith s (u "retourner") = true ->
  parse_statement indent s
  = PyOk [indent ++ u "return " ++ strip (replace s (u "retourner") [])].
Proof.
  intros H. unfold parse_statement. do 16 skip_rule H. rewrite H. reflexivity.
Qed.

(** The text after a keyword and a space, once the keyword is removed
    and the result stripped. *)
Lemma keyword_removed (k : char) (kw' rest : str) :
  isspace k = false ->
  strip rest = rest ->
  has_infix (k :: kw') rest = false ->
  strip (replace ((k :: kw') ++ 32%N :: rest) (k :: kw') []) = rest.
Proof.
  intros Hk Hs Hi. rewrite replace_leading_keyword.
  - now apply strip_after_space.
  - apply has_infix_after; [|exact Hi].
    cbn [startswith]. change (k =? 32)%N with (N.eqb k 32).
    destruct (N.eqb k 32) eqn:E; [|reflexivity].
    apply N.eqb_eq in E. subst k. discriminate Hk.
Qed.

(** X17.  On a line without whitespace at its end, the declarations
    [variable REST] and [liste REST], the function header [fonction REST]
    and the statement [retourner REST], where [REST] has no whitespace at
    its ends and does not hold the keyword again, are translated into
    [REST], [REST], [def REST] and [return REST] behind four spaces per
    level, the level being the number of whitespace characters the line
    begins with divided by 4. *)
Theorem keyword_rules_translated (line rest : str) :
  rstrip line = line ->
  strip rest = rest ->
  let indent := str_mul (u "    ") (spec_indent_level line) in
  (strip line = u "variable" ++ 32%N :: rest ->
   has_infix (u "variable") rest = false ->
   parse_line line = PyOk [indent ++ rest])
  /\ (strip line = u "liste" ++ 32%N :: rest ->
      has_infix (u "liste") rest = false ->
      parse_line line = PyOk [indent ++ rest])
  /\ (strip line = u "fonction" ++ 32%N :: rest ->
      has_infix (u "fonction") rest = false ->
      parse_line line = PyOk [indent ++ u "def " ++ rest])
  /\ (strip line = u "retourner" ++ 32%N :: rest ->
      has_infix (u "retourner") rest = false ->
      parse_line line = PyOk [indent ++ u "return " ++ rest]).
Proof.
  intros Hl Hr indent. subst indent.
  split; [|split; [|split]]; intros Hs Hi; unfold parse_line; cbv zeta;
    rewrite (indent_level_is_leading line Hl), Hs.
  - rewrite statement_variable by apply startswith_app.
    change (u "variable") with (118%N :: u "ariable") in *.
    now rewrite keyword_removed.
  - rewrite statement_liste by apply startswith_app.
    change (u "liste") with (108%N :: u "iste") in *.
    now rewrite keyword_removed.
  - rewrite statement_fonction by apply startswith_app.
    change (u "fonction") with (102%N :: u "onction") in *.
    now rewrite keyword_removed.
  - rewrite statement_retourner by apply startswith_app.
    change (u "retourner") with (114%N :: u "etourner") in *.
    now rewrite keyword_removed.
Qed.

Lemma keyword_rules_translated_witness :
  parse_line (u "variable score = 0") = PyOk [u "score = 0"]
  /\ parse_line (u "    retourner x * 2") = PyOk [u "    return x * 2"].
Proof.
  split.
  - refine (eq_trans
              (proj1 (keyword_rules_translated (u "variable score = 0")
                        (u "score = 0") _ _) _ _) _);
      vm_compute; reflexivity.
  - refine (eq_trans
              (proj2 (proj2 (proj2 (keyword_rules_translated
                        (u "    retourner x * 2") (u "x * 2") _ _))) _ _) _);
      vm_compute; reflexivity.
Defined.

(** X18.  On a line without whitespace at its end, the output statement
    [dire(REST], where [REST] does not hold [dire] again, is translated
    into [print(REST] behind four spaces per level, the level being the
    number of whitespace characters the line begins with divided by 4:
    the argument is passed as it is. *)
Theorem dire_translated (line rest : str) :
  rstrip line = line ->
  strip line = u "dire(" ++ rest ->
  has_infix (u "dire") rest = false ->
  parse_line line
  = PyOk [str_mul (u "    ") (spec_indent_level line) ++ u "print(" ++ rest].
Proof.
  intros Hr Hs Hi. unfold parse_line. cbv zeta.
  rewrite (indent_level_is_leading line Hr), Hs.
  unfold parse_statement. rewrite startswith_app.
  change (u "dire(" ++ rest) with ((100%N :: u "ire") ++ 40%N :: rest).
  change (u "dire") with (100%N :: u "ire") in *.
  rewrite replace_leading_keyword by (apply has_infix_after; [reflexivity|exact Hi]).
  reflexivity.
Qed.

Lemma dire_translated_witness :
  parse_line (u "    dire(total + 1)") = PyOk [u "    print(total + 1)"].
Proof.
  refine (eq_trans (dire_translated (u "    dire(total + 1)")
                      (u "total + 1)") _ _ _) _);
    vm_compute; reflexivity.
Defined.
